(** * blog-api-server: the request-processing core, embedded and verified

    The development follows the Go packages of the repository:
    - [internal/domain]: the Blog entity, the two request DTOs, their
      validation, the factory [NewBlog] and [Blog.Update];
    - [internal/store]: the [BlogStore] interface and [MemoryBlogStore];
    - [internal/api]: the codec helpers ([encode], [decodeValid]), the
      handlers, the router ([addRoutes]) and the middleware chain.

    Go strings are byte sequences: they are modelled by [string], whose
    characters are bytes, and [len] is the byte length.  A Go map is a
    [gmap]; a Go slice that may be nil is an [option (list _)]. *)

From Stdlib Require Import ZArith NArith Ascii String List.
From stdpp Require Import base option list strings gmap fin_maps sorting pretty.

Local Open Scope string_scope.
Local Open Scope Z_scope.

(** ** Go strings *)

Definition byte (n : N) : ascii := ascii_of_N n.

(** [len(s)]: the number of bytes of [s]. *)
Definition len (s : string) : Z := Z.of_nat (String.length s).

(** The table [asciiSpace] of package strings: tab, line feed, vertical
    tab, form feed, carriage return and space. *)
Definition asciiSpace (c : ascii) : bool :=
  match N_of_ascii c with
  | 9%N | 10%N | 11%N | 12%N | 13%N | 32%N => true
  | _ => false
  end.

(** UTF-8 encodings of the remaining code points of [unicode.IsSpace]:
    U+0085 and U+00A0 take two bytes. *)
Definition space2 (b1 b2 : ascii) : bool :=
  (N_of_ascii b1 =? 194)%N &&
  ((N_of_ascii b2 =? 133)%N || (N_of_ascii b2 =? 160)%N).

(** U+1680, U+2000..U+200A, U+2028, U+2029, U+202F, U+205F and U+3000
    take three bytes. *)
Definition space3 (b1 b2 b3 : ascii) : bool :=
  let x := N_of_ascii b1 in
  let y := N_of_ascii b2 in
  let z := N_of_ascii b3 in
  ((x =? 225) && (y =? 154) && (z =? 128))%N
  || ((x =? 226) && (y =? 128) &&
      (((128 <=? z) && (z <=? 138)) || (z =? 168) || (z =? 169) || (z =? 175)))%N
  || ((x =? 226) && (y =? 129) && (z =? 159))%N
  || ((x =? 227) && (y =? 128) && (z =? 128))%N.

(** [strings.TrimLeftFunc(s, unicode.IsSpace)]: drop white-space runes
    from the front. *)
Fixpoint TrimLeftSpace (s : string) : string :=
  match s with
  | EmptyString => EmptyString
  | String c1 t1 =>
      if asciiSpace c1 then TrimLeftSpace t1
      else match t1 with
           | String c2 t2 =>
               if space2 c1 c2 then TrimLeftSpace t2
               else match t2 with
                    | String c3 t3 =>
                        if space3 c1 c2 c3 then TrimLeftSpace t3 else s
                    | EmptyString => s
                    end
           | EmptyString => s
           end
  end.

(** The same walk from the back, on the reversed byte sequence: the head
    of [s] is the last byte of the original string. *)
Fixpoint trimRevSpace (s : string) : string :=
  match s with
  | EmptyString => EmptyString
  | String c1 t1 =>
      if asciiSpace c1 then trimRevSpace t1
      else match t1 with
           | String c2 t2 =>
               if space2 c2 c1 then trimRevSpace t2
               else match t2 with
                    | String c3 t3 =>
                        if space3 c3 c2 c1 then trimRevSpace t3 else s
                    | EmptyString => s
                    end
           | EmptyString => s
           end
  end.

Definition TrimRightSpace (s : string) : string :=
  String.rev (trimRevSpace (String.rev s)).

(** [strings.TrimSpace]: all leading and trailing white space removed. *)
Definition TrimSpace (s : string) : string :=
  TrimRightSpace (TrimLeftSpace s).

(** [strings.Repeat] for a single byte. *)
Fixpoint Repeat (c : ascii) (n : nat) : string :=
  match n with
  | O => EmptyString
  | S n' => String c (Repeat c n')
  end.

(** ** Package domain *)

(** [time.Time] values are UTC instants, counted in nanoseconds. *)
Definition Time := Z.

(** [map[string]string], the type of the problems a validator reports. *)
Abbreviation StringMap := (gmap string string).

Module Blog.
Record t := mk {
  ID : string;
  Title : string;
  Content : string;
  Author : string;
  CreatedAt : Time;
  UpdatedAt : Time
}.
End Blog.

Module CreateBlogRequest.
Record t := mk {
  Title : string;
  Content : string;
  Author : string
}.

(** [func (r CreateBlogRequest) Valid(ctx) map[string]string]: the
    assignments are made in the order of the source, a later one
    overwriting an earlier one under the same key. *)
Definition Valid (r : t) : StringMap :=
  let problems : StringMap := ∅ in
  let problems :=
    if String.eqb (TrimSpace (Title r)) ""
    then <["title" := "title is required"]> problems else problems in
  let problems :=
    if 100 <? len (Title r)
    then <["title" := "title must be less than 100 characters"]> problems
    else problems in
  let problems :=
    if String.eqb (TrimSpace (Content r)) ""
    then <["content" := "content is required"]> problems else problems in
  let problems :=
    if 5000 <? len (Content r)
    then <["content" := "content must be less than 5000 characters"]> problems
    else problems in
  let problems :=
    if String.eqb (TrimSpace (Author r)) ""
    then <["author" := "author is required"]> problems else problems in
  let problems :=
    if 50 <? len (Author r)
    then <["author" := "author must be less than 50 characters"]> problems
    else problems in
  problems.
End CreateBlogRequest.

Module UpdateBlogRequest.
(** The fields are [*string]: [None] is the nil pointer. *)
Record t := mk {
  Title : option string;
  Content : option string
}.

Definition Valid (r : t) : StringMap :=
  let problems : StringMap := ∅ in
  let problems :=
    match Title r with
    | Some title =>
        let problems :=
          if 100 <? len title
          then <["title" := "title must be less than 100 characters"]> problems
          else problems in
        if String.eqb (TrimSpace title) ""
        then <["title" := "title cannot be empty"]> problems else problems
    | None => problems
    end in
  let problems :=
    match Content r with
    | Some content =>
        let problems :=
          if 5000 <? len content
          then <["content" := "content must be less than 5000 characters"]> problems
          else problems in
        if String.eqb (TrimSpace content) ""
        then <["content" := "content cannot be empty"]> problems else problems
    | None => problems
    end in
  problems.
End UpdateBlogRequest.

(** [uuid.New().String()] of github.com/google/uuid: sixteen random bytes,
    the version and variant bits forced, printed as 8-4-4-4-12 lower-case
    hexadecimal digits.  [entropy i] is the i-th byte read from the random
    source. *)
Module uuid.
Definition UUID := list N.

Definition New (entropy : nat → N) : UUID :=
  let raw := (λ i, (entropy i mod 256)%N) <$> seq 0 16 in
  let raw := alter (λ b, N.lor (N.land b 15) 64) 6%nat raw in
  alter (λ b, N.lor (N.land b 63) 128) 8%nat raw.

Definition hexDigit (n : N) : ascii :=
  if (n <? 10)%N then ascii_of_N (48 + n) else ascii_of_N (87 + n).

Fixpoint encodeHex (bs : list N) : string :=
  match bs with
  | [] => EmptyString
  | b :: bs' =>
      String (hexDigit (b / 16)) (String (hexDigit (b mod 16)) (encodeHex bs'))
  end.

Definition String (u : UUID) : string :=
  encodeHex (take 4 u) ++ "-" ++
  encodeHex (take 2 (drop 4 u)) ++ "-" ++
  encodeHex (take 2 (drop 6 u)) ++ "-" ++
  encodeHex (take 2 (drop 8 u)) ++ "-" ++
  encodeHex (take 6 (drop 10 u)).
End uuid.

(** [func NewBlog(req CreateBlogRequest) *Blog].  The two readings of the
    environment, [time.Now().UTC()] and [uuid.New()], are arguments. *)
Definition NewBlog (now : Time) (id : uuid.UUID) (req : CreateBlogRequest.t)
  : Blog.t :=
  {| Blog.ID := uuid.String id;
     Blog.Title := TrimSpace (CreateBlogRequest.Title req);
     Blog.Content := TrimSpace (CreateBlogRequest.Content req);
     Blog.Author := TrimSpace (CreateBlogRequest.Author req);
     Blog.CreatedAt := now;
     Blog.UpdatedAt := now |}.

(** [func (b *Blog) Update(req UpdateBlogRequest)]: the receiver is
    mutated in place; the model returns the blog after the call.  [now] is
    the reading [time.Now().UTC()] made by the call. *)
Definition Blog_Update (now : Time) (b : Blog.t) (req : UpdateBlogRequest.t)
  : Blog.t :=
  let b :=
    match UpdateBlogRequest.Title req with
    | Some title =>
        {| Blog.ID := Blog.ID b; Blog.Title := TrimSpace title;
           Blog.Content := Blog.Content b; Blog.Author := Blog.Author b;
           Blog.CreatedAt := Blog.CreatedAt b; Blog.UpdatedAt := Blog.UpdatedAt b |}
    | None => b
    end in
  let b :=
    match UpdateBlogRequest.Content req with
    | Some content =>
        {| Blog.ID := Blog.ID b; Blog.Title := Blog.Title b;
           Blog.Content := TrimSpace content; Blog.Author := Blog.Author b;
           Blog.CreatedAt := Blog.CreatedAt b; Blog.UpdatedAt := Blog.UpdatedAt b |}
    | None => b
    end in
  {| Blog.ID := Blog.ID b; Blog.Title := Blog.Title b;
     Blog.Content := Blog.Content b; Blog.Author := Blog.Author b;
     Blog.CreatedAt := Blog.CreatedAt b; Blog.UpdatedAt := now |}.

(** ** Package store *)

Inductive error :=
| ErrNotFound                                  (* store.ErrNotFound *)
| DecodeError (cause : string)                 (* "decode json: %w" *)
| InvalidError (typeName : string) (n : nat)   (* "invalid %T: %d problems" *)
| OtherError (text : string).                  (* any other error value *)

#[global] Instance error_eq_dec : EqDecision error.
Proof. solve_decision. Defined.

(** [errors.Is(err, target)] on these unwrapped error values. *)
Definition errors_Is (err target : error) : bool := bool_decide (err = target).

Inductive result (A : Type) :=
| Ok (a : A)
| Err (e : error).
Arguments Ok {A} a.
Arguments Err {A} e.

(** A slice that may be nil: [None] is the nil slice. *)
Definition slice (A : Type) := option (list A).

Definition elems {A} (s : slice A) : list A := default [] s.

(** [append(s, x)]: the result is never nil. *)
Definition append {A} (s : slice A) (x : A) : slice A := Some (elems s ++ [x])%list.

(** [type BlogStore interface]: each method takes the state of the store
    and gives the state after the call. *)
Module store.
Class BlogStore (S : Type) := {
  Create : S → Blog.t → S * option error;
  GetByID : S → string → result Blog.t;
  GetAll : S → result (slice Blog.t);
  GetByAuthor : S → string → result (slice Blog.t);
  Update : S → string → Blog.t → S * option error;
  Delete : S → string → S * option error
}.
End store.

Module MemoryBlogStore.
(** The field [blogs map[string]*domain.Blog].  Every call runs under
    the lock of the store, so calls are atomic steps on the map.  The
    map holds the pointer it is given; no caller in the repository
    writes through a pointer after handing it over, and reads return
    copies, so the stored value is the value at the time of the call. *)
Abbreviation t := (gmap string Blog.t).

Definition NewMemoryBlogStore : t := ∅.

Definition Create (s : t) (blog : Blog.t) : t * option error :=
  (<[Blog.ID blog := blog]> s, None).

Definition GetByID (s : t) (id : string) : result Blog.t :=
  match s !! id with
  | None => Err ErrNotFound
  | Some blog => Ok blog
  end.

Definition Update (s : t) (id : string) (blog : Blog.t) : t * option error :=
  match s !! id with
  | None => (s, Some ErrNotFound)
  | Some _ => (<[id := blog]> s, None)
  end.

Definition Delete (s : t) (id : string) : t * option error :=
  match s !! id with
  | None => (s, Some ErrNotFound)
  | Some _ => (delete id s, None)
  end.

Section Range.
(** [for _, blog := range s.blogs]: Go leaves the iteration order of a
    map unspecified.  [range] is the order taken; all that is known of
    it is that it visits every entry once. *)
Variable range : t → list (string * Blog.t).

Definition GetAll (s : t) : result (slice Blog.t) :=
  let blogs : slice Blog.t := Some [] in
  Ok (foldl (λ blogs kv, append blogs (snd kv)) blogs (range s)).

Definition GetByAuthor (s : t) (author : string) : result (slice Blog.t) :=
  let blogs : slice Blog.t := None in
  Ok (foldl (λ blogs kv,
               if String.eqb (Blog.Author (snd kv)) author
               then append blogs (snd kv) else blogs)
            blogs (range s)).

#[export] Instance memory_BlogStore : store.BlogStore t := {|
  store.Create := Create;
  store.GetByID := GetByID;
  store.GetAll := GetAll;
  store.GetByAuthor := GetByAuthor;
  store.Update := Update;
  store.Delete := Delete
|}.
End Range.

(** A range order is admissible when it enumerates the map. *)
Definition range_ok (range : t → list (string * Blog.t)) : Prop :=
  ∀ s, range s ≡ₚ map_to_list s.

(** Sequences of mutating calls, for the states a store can reach. *)
Inductive call :=
| CallCreate (blog : Blog.t)
| CallUpdate (id : string) (blog : Blog.t)
| CallDelete (id : string).

Definition exec (s : t) (c : call) : t :=
  match c with
  | CallCreate blog => fst (Create s blog)
  | CallUpdate id blog => fst (Update s id blog)
  | CallDelete id => fst (Delete s id)
  end.

Definition run (cs : list call) : t := foldl exec NewMemoryBlogStore cs.

(** No two entries of the map hold blogs with the same [ID]. *)
Definition unique_ids (s : t) : Prop :=
  ∀ k1 k2 b1 b2,
    s !! k1 = Some b1 → s !! k2 = Some b2 → Blog.ID b1 = Blog.ID b2 → k1 = k2.

(** Every blog is stored under its own [ID]. *)
Definition keyed_by_id (s : t) : Prop :=
  ∀ k b, s !! k = Some b → Blog.ID b = k.

(** An [Update] call that passes a blog carrying the id it names. *)
Definition own_id (c : call) : Prop :=
  match c with
  | CallUpdate id blog => Blog.ID blog = id
  | _ => True
  end.
End MemoryBlogStore.

(** ** Package api: values on the wire *)

(** The JSON documents [encoding/json] produces for the values of this
    program; object fields are in the order they are written. *)
#[local] Unset Elimination Schemes.
Inductive JSON :=
| JNull
| JString (s : string)
| JTime (t : Time)
| JArray (l : list JSON)
| JObject (fields : list (string * JSON)).
#[local] Set Elimination Schemes.

Class ToJSON (T : Type) := toJSON : T → JSON.

#[global] Instance Blog_ToJSON : ToJSON Blog.t := λ b,
  JObject [("id", JString (Blog.ID b));
           ("title", JString (Blog.Title b));
           ("content", JString (Blog.Content b));
           ("author", JString (Blog.Author b));
           ("created_at", JTime (Blog.CreatedAt b));
           ("updated_at", JTime (Blog.UpdatedAt b))].

(** A nil slice is encoded as [null], any other slice as an array. *)
#[global] Instance slice_ToJSON {T} `{ToJSON T} : ToJSON (slice T) := λ s,
  match s with
  | None => JNull
  | Some l => JArray (toJSON <$> l)
  end.

(** A [map[string]string] is encoded with its keys sorted. *)
#[global] Instance map_ToJSON : ToJSON (gmap string string) := λ m,
  JObject (merge_sort (λ x y, String.le (fst x) (fst y))
                      (prod_map id JString <$> map_to_list m)).

(** [type ErrorResponse struct]; [Problems] carries [omitempty], so a nil
    or empty map leaves the field out. *)
Record ErrorResponse := mkErrorResponse {
  Error : string;
  Problems : option StringMap
}.

#[global] Instance ErrorResponse_ToJSON : ToJSON ErrorResponse := λ e,
  JObject (("error", JString (Error e)) ::
           match Problems e with
           | Some p => if (0 <? size p)%nat then [("problems", toJSON p)] else []
           | None => []
           end).

(** A piece of response body: one value written by [json.Encoder.Encode]
    (the document and a line feed), or raw text. *)
Inductive Chunk :=
| JSONLine (j : JSON)
| Text (s : string).

Definition PanicValue := string.

Inductive Level := LevelInfo | LevelError.

Inductive LogValue :=
| LString (s : string)
| LInt (n : Z)
| LError (e : error)
| LAny (v : PanicValue).

(** What a handler does to the outside while it runs: the calls it makes
    on its [http.ResponseWriter] and the records it hands to the logger. *)
Inductive Op :=
| SetHeader (key value : string)           (* w.Header().Set(key, value) *)
| WriteHeader (code : Z)                   (* w.WriteHeader(code) *)
| WriteBody (c : Chunk)                    (* w.Write(...) *)
| LogRecord (lvl : Level) (msg : string) (attrs : list (string * LogValue)).

Inductive Outcome :=
| Returned
| Panicked (v : PanicValue).

(** One run of a handler: its calls in order, how it ended, and the store
    it leaves behind. *)
Record Run (S : Type) := mkRun {
  ops : list Op;
  outcome : Outcome;
  final : S
}.
Arguments mkRun {S} ops outcome final.
Arguments ops {S} r.
Arguments outcome {S} r.
Arguments final {S} r.

Record Request := mkRequest {
  Method : string;
  Path : string;                      (* r.URL.Path *)
  Query : list (string * string);     (* r.URL.Query(), pairs in order *)
  Body : string;
  RemoteAddr : string;
  UserAgent : string
}.

(** [url.Values.Get]: the first value of the key, or the empty string. *)
Fixpoint Values_Get (q : list (string * string)) (key : string) : string :=
  match q with
  | [] => ""
  | (k, v) :: q' => if String.eqb k key then v else Values_Get q' key
  end.

(** What one request reads from its environment: the clock at the start
    and at the end of the logging middleware, the clock inside the handler
    and the bytes of the random source. *)
Record Env := mkEnv {
  logStart : Time;
  now : Time;
  logEnd : Time;
  entropy : nat → N
}.

Definition Handler (S : Type) := Env → Request → S → Run S.

Definition StatusOK : Z := 200.
Definition StatusCreated : Z := 201.
Definition StatusNoContent : Z := 204.
Definition StatusBadRequest : Z := 400.
Definition StatusNotFound : Z := 404.
Definition StatusMethodNotAllowed : Z := 405.
Definition StatusInternalServerError : Z := 500.

Definition LF : string := String (byte 10) EmptyString.

(** ** The response writer of net/http *)

Record ResponseWriter := mkWriter {
  header : gmap string string;      (* the live header map *)
  wroteHeader : bool;
  status : Z;
  sentHeader : gmap string string;  (* the headers as sent with the status *)
  body : list Chunk
}.

Definition newWriter : ResponseWriter :=
  mkWriter ∅ false 0 ∅ [].

(** Only the first [WriteHeader] counts; an informational code (1xx other
    than 101) does not commit the response. *)
Definition doWriteHeader (code : Z) (w : ResponseWriter) : ResponseWriter :=
  if wroteHeader w then w
  else if (100 <=? code) && (code <=? 199) && negb (code =? 101) then w
  else mkWriter (header w) true code (header w) (body w).

Definition bodyAllowedForStatus (code : Z) : bool :=
  negb (((100 <=? code) && (code <=? 199)) || (code =? 204) || (code =? 304)).

(** A [Write] before any [WriteHeader] sends status 200 first. *)
Definition doWrite (c : Chunk) (w : ResponseWriter) : ResponseWriter :=
  let w := if wroteHeader w then w else doWriteHeader StatusOK w in
  if bodyAllowedForStatus (status w)
  then mkWriter (header w) (wroteHeader w) (status w) (sentHeader w) (body w ++ [c])
  else w.

Definition step (w : ResponseWriter) (op : Op) : ResponseWriter :=
  match op with
  | SetHeader k v =>
      mkWriter (<[k := v]> (header w)) (wroteHeader w) (status w) (sentHeader w) (body w)
  | WriteHeader code => doWriteHeader code w
  | WriteBody c => doWrite c w
  | LogRecord _ _ _ => w
  end.

Definition written (l : list Op) : ResponseWriter := foldl step newWriter l.

Record Response := mkResponse {
  StatusCode : Z;
  Header : gmap string string;
  ResponseBody : list Chunk
}.

(** The response the client gets once the handler has returned: a handler
    that never wrote the header gets status 200. *)
Definition respond (l : list Op) : Response :=
  let w := written l in
  let w := if wroteHeader w then w else doWriteHeader StatusOK w in
  mkResponse (status w) (sentHeader w) (body w).

(** The log records of a run, in order. *)
Definition logged (l : list Op) : list (Level * string * list (string * LogValue)) :=
  omap (λ op, match op with
              | LogRecord lvl msg attrs => Some (lvl, msg, attrs)
              | _ => None
              end) l.

(** ** Package api: codec helpers *)

(** [type Validator interface]; [zeroValue] is [var v T] and [typeName]
    what [%T] prints.  [decodeValid] only takes the [len] of the map
    [Valid] returns, so a nil map counts as the empty one. *)
Class Validator (T : Type) := {
  Valid : T → StringMap;
  zeroValue : T;
  typeName : string
}.

#[global] Instance CreateBlogRequest_Validator : Validator CreateBlogRequest.t := {|
  Valid := CreateBlogRequest.Valid;
  zeroValue := CreateBlogRequest.mk "" "" "";
  typeName := "domain.CreateBlogRequest"
|}.

#[global] Instance UpdateBlogRequest_Validator : Validator UpdateBlogRequest.t := {|
  Valid := UpdateBlogRequest.Valid;
  zeroValue := UpdateBlogRequest.mk None None;
  typeName := "domain.UpdateBlogRequest"
|}.

(** [json.NewDecoder(r.Body).Decode(&v)] of encoding/json: from the body
    and the value [v] points to, the value afterwards and the error. *)
Class JSONDecoder (T : Type) := Decode : string → T → T * option string.

(** [func encode[T any](w, r, status, v) error].  The encoder fails only
    on values it cannot marshal or on a failing writer; for the payloads
    of this program the returned error is nil. *)
Definition encode {T} `{ToJSON T} (status : Z) (v : T) : list Op * option error :=
  ([SetHeader "Content-Type" "application/json";
    WriteHeader status;
    WriteBody (JSONLine (toJSON v))], None).

(** The three results of [decodeValid], and the receivers on which
    [Valid] was called while producing them. *)
Record Decoded (T : Type) := mkDecoded {
  value : T;
  problems : option StringMap;
  err : option error;
  validCalls : list T
}.
Arguments mkDecoded {T} value problems err validCalls.
Arguments value {T} d.
Arguments problems {T} d.
Arguments err {T} d.
Arguments validCalls {T} d.

(** [func decodeValid[T Validator](r *http.Request) (T, map[string]string, error)] *)
Definition decodeValid {T} {V : Validator T} {D : JSONDecoder T} (r : Request)
  : Decoded T :=
  let v := zeroValue in
  match Decode (Body r) v with
  | (v, Some e) => mkDecoded v None (Some (DecodeError e)) []
  | (v, None) =>
      let problems := Valid v in
      if (0 <? size problems)%nat
      then mkDecoded v (Some problems)
                     (Some (InvalidError typeName (size problems))) [v]
      else mkDecoded v None None [v]
  end.

(** [http.Error(w, text, code)]: the two headers, the status, and the
    text followed by a line feed.  (It also deletes Content-Length, which
    no handler here sets.) *)
Definition http_Error (text : string) (code : Z) : list Op :=
  [SetHeader "Content-Type" "text/plain; charset=utf-8";
   SetHeader "X-Content-Type-Options" "nosniff";
   WriteHeader code;
   WriteBody (Text (text ++ LF))].

(** ** Package api: handlers *)

Section Handlers.
Context {S : Type} {BS : store.BlogStore S}.
Context {DC : JSONDecoder CreateBlogRequest.t} {DU : JSONDecoder UpdateBlogRequest.t}.

Definition handleHealthz : Handler S := λ env r s,
  let response : gmap string string := {["status" := "ok"]} in
  match encode StatusOK response with
  | (out, Some e) =>
      mkRun (out ++ [LogRecord LevelError "failed to encode health response"
                               [("error", LError e)]]) Returned s
  | (out, None) => mkRun out Returned s
  end.

Definition handleBlogsCreate : Handler S := λ env r s,
  if negb (String.eqb (Method r) "POST")
  then mkRun (http_Error "Method not allowed" StatusMethodNotAllowed) Returned s
  else
    let d := decodeValid (T := CreateBlogRequest.t) r in
    match err d with
    | Some e =>
        match problems d with
        | Some p =>
            let response := mkErrorResponse "Validation failed" (Some p) in
            mkRun (fst (encode StatusBadRequest response)) Returned s
        | None =>
            let response := mkErrorResponse "Invalid request body" None in
            mkRun (LogRecord LevelError "failed to decode request"
                             [("error", LError e)]
                   :: fst (encode StatusBadRequest response)) Returned s
        end
    | None =>
        let blog := NewBlog (now env) (uuid.New (entropy env)) (value d) in
        match store.Create s blog with
        | (s, Some e) =>
            let response := mkErrorResponse "Failed to create blog" None in
            mkRun (LogRecord LevelError "failed to create blog"
                             [("error", LError e)]
                   :: fst (encode StatusInternalServerError response)) Returned s
        | (s, None) =>
            mkRun (LogRecord LevelInfo "blog created"
                             [("id", LString (Blog.ID blog));
                              ("title", LString (Blog.Title blog))]
                   :: fst (encode StatusCreated blog)) Returned s
        end
    end.

Definition handleBlogsGet : Handler S := λ env r s,
  if negb (String.eqb (Method r) "GET")
  then mkRun (http_Error "Method not allowed" StatusMethodNotAllowed) Returned s
  else
    let author := Values_Get (Query r) "author" in
    let res :=
      if negb (String.eqb author "")
      then store.GetByAuthor s author
      else store.GetAll s in
    match res with
    | Err e =>
        let response := mkErrorResponse "Failed to retrieve blogs" None in
        mkRun (LogRecord LevelError "failed to get blogs" [("error", LError e)]
               :: fst (encode StatusInternalServerError response)) Returned s
    | Ok blogs => mkRun (fst (encode StatusOK blogs)) Returned s
    end.

Definition handleBlogGet (id : string) : Handler S := λ env r s,
  match store.GetByID s id with
  | Err e =>
      if errors_Is e ErrNotFound
      then mkRun (fst (encode StatusNotFound (mkErrorResponse "Blog not found" None)))
                 Returned s
      else mkRun (LogRecord LevelError "failed to get blog"
                            [("error", LError e); ("id", LString id)]
                  :: fst (encode StatusInternalServerError
                                 (mkErrorResponse "Failed to retrieve blog" None)))
                 Returned s
  | Ok blog => mkRun (fst (encode StatusOK blog)) Returned s
  end.

Definition handleBlogUpdate (id : string) : Handler S := λ env r s,
  match store.GetByID s id with
  | Err e =>
      if errors_Is e ErrNotFound
      then mkRun (fst (encode StatusNotFound (mkErrorResponse "Blog not found" None)))
                 Returned s
      else mkRun (LogRecord LevelError "failed to get blog for update"
                            [("error", LError e); ("id", LString id)]
                  :: fst (encode StatusInternalServerError
                                 (mkErrorResponse "Failed to retrieve blog" None)))
                 Returned s
  | Ok existingBlog =>
      let d := decodeValid (T := UpdateBlogRequest.t) r in
      match err d with
      | Some e =>
          match problems d with
          | Some p =>
              let response := mkErrorResponse "Validation failed" (Some p) in
              mkRun (fst (encode StatusBadRequest response)) Returned s
          | None =>
              let response := mkErrorResponse "Invalid request body" None in
              mkRun (LogRecord LevelError "failed to decode update request"
                               [("error", LError e)]
                     :: fst (encode StatusBadRequest response)) Returned s
          end
      | None =>
          let existingBlog := Blog_Update (now env) existingBlog (value d) in
          match store.Update s id existingBlog with
          | (s, Some e) =>
              let response := mkErrorResponse "Failed to update blog" None in
              mkRun (LogRecord LevelError "failed to update blog"
                               [("error", LError e); ("id", LString id)]
                     :: fst (encode StatusInternalServerError response)) Returned s
          | (s, None) =>
              mkRun (LogRecord LevelInfo "blog updated" [("id", LString id)]
                     :: fst (encode StatusOK existingBlog)) Returned s
          end
      end
  end.

Definition handleBlogDelete (id : string) : Handler S := λ env r s,
  match store.Delete s id with
  | (s, Some e) =>
      if errors_Is e ErrNotFound
      then mkRun (fst (encode StatusNotFound (mkErrorResponse "Blog not found" None)))
                 Returned s
      else mkRun (LogRecord LevelError "failed to delete blog"
                            [("error", LError e); ("id", LString id)]
                  :: fst (encode StatusInternalServerError
                                 (mkErrorResponse "Failed to delete blog" None)))
                 Returned s
  | (s, None) =>
      mkRun [LogRecord LevelInfo "blog deleted" [("id", LString id)];
             WriteHeader StatusNoContent] Returned s
  end.

(** [strings.TrimPrefix] *)
Definition TrimPrefix (s prefix : string) : string :=
  if String.prefix prefix s
  then String.substring (String.length prefix)
                        (String.length s - String.length prefix) s
  else s.

(** [strings.Contains(s, "/")] *)
Fixpoint ContainsSlash (s : string) : bool :=
  match s with
  | EmptyString => false
  | String c s' => Ascii.eqb c "/"%char || ContainsSlash s'
  end.

Definition handleBlogsByID : Handler S := λ env r s,
  let path := TrimPrefix (Path r) "/api/v1/blogs/" in
  if String.eqb path "" || ContainsSlash path
  then mkRun (fst (encode StatusBadRequest (mkErrorResponse "Invalid blog ID" None)))
             Returned s
  else
    let id := path in
    if String.eqb (Method r) "GET" then handleBlogGet id env r s
    else if String.eqb (Method r) "PUT" then handleBlogUpdate id env r s
    else if String.eqb (Method r) "DELETE" then handleBlogDelete id env r s
    else mkRun (http_Error "Method not allowed" StatusMethodNotAllowed) Returned s.

(** ** Package api: router *)

(** [http.ServeMux] with the patterns this program registers: a pattern
    that ends in a slash matches every path it is a prefix of, any other
    pattern matches the equal path only, and the longest matching
    pattern wins.  Patterns carry no method, so every method matches.
    Paths are taken as the mux sees them after its own cleaning. *)
Definition ServeMux := list (string * Handler S).

Definition NewServeMux : ServeMux := [].

Definition Handle (mux : ServeMux) (pattern : string) (h : Handler S) : ServeMux :=
  (mux ++ [(pattern, h)])%list.

Definition endsInSlash (pattern : string) : bool :=
  match String.rev pattern with
  | String c _ => Ascii.eqb c "/"%char
  | EmptyString => false
  end.

Definition patternMatches (pattern path : string) : bool :=
  if endsInSlash pattern then String.prefix pattern path
  else String.eqb pattern path.

Definition findHandler (mux : ServeMux) (path : string) : option (string * Handler S) :=
  foldl (λ best e,
           if patternMatches (fst e) path
           then match best with
                | Some b =>
                    if (String.length (fst b) <? String.length (fst e))%nat
                    then Some e else best
                | None => Some e
                end
           else best) None mux.

Definition ServeMux_ServeHTTP (mux : ServeMux) : Handler S := λ env r s,
  match findHandler mux (Path r) with
  | Some (_, h) => h env r s
  | None => mkRun (http_Error "404 page not found" StatusNotFound) Returned s
  end.

Definition addRoutes (mux : ServeMux) : ServeMux :=
  let mux := Handle mux "/healthz" handleHealthz in
  let mux := Handle mux "/readyz" handleHealthz in
  let mux :=
    Handle mux "/api/v1/blogs"
      (λ env r s,
         if String.eqb (Method r) "GET" then handleBlogsGet env r s
         else if String.eqb (Method r) "POST" then handleBlogsCreate env r s
         else mkRun (http_Error "Method Not Allowed" StatusMethodNotAllowed)
                    Returned s) in
  Handle mux "/api/v1/blogs/" handleBlogsByID.

(** ** Package api: middleware *)

(** [responseWriter.WriteHeader] stores every code it is called with, so
    the field [statusCode] ends as the code of the last call, and as 200
    when there was none. *)
Definition capturedStatus (l : list Op) : Z :=
  foldl (λ code op, match op with WriteHeader c => c | _ => code end) StatusOK l.

(** A panic of the inner handler unwinds through this middleware: the
    log call after [next.ServeHTTP] is then not reached. *)
Definition loggingMiddleware (next : Handler S) : Handler S := λ env r s,
  let start := logStart env in
  let run := next env r s in
  match outcome run with
  | Panicked v => run
  | Returned =>
      let duration := logEnd env - start in
      mkRun (ops run ++
             [LogRecord LevelInfo "request completed"
                [("method", LString (Method r));
                 ("path", LString (Path r));
                 ("status", LInt (capturedStatus (ops run)));
                 ("duration", LInt duration);
                 ("remote_addr", LString (RemoteAddr r));
                 ("user_agent", LString (UserAgent r))]])
            Returned (final run)
  end.

Definition corsMiddleware (next : Handler S) : Handler S := λ env r s,
  let headers :=
    [SetHeader "Access-Control-Allow-Origin" "*";
     SetHeader "Access-Control-Allow-Methods" "GET, POST, PUT, DELETE, OPTIONS";
     SetHeader "Access-Control-Allow-Headers" "Content-Type, Authorization"] in
  if String.eqb (Method r) "OPTIONS"
  then mkRun (headers ++ [WriteHeader StatusOK]) Returned s
  else
    let run := next env r s in
    mkRun (headers ++ ops run) (outcome run) (final run).

(** The deferred function runs when [next.ServeHTTP] panics: it logs the
    panic value, then writes the 500 envelope to the same writer the
    inner handler was given. *)
Definition panicRecoveryMiddleware (next : Handler S) : Handler S := λ env r s,
  let run := next env r s in
  match outcome run with
  | Returned => run
  | Panicked v =>
      let response := mkErrorResponse "Internal server error" None in
      mkRun (ops run ++
             [LogRecord LevelError "panic recovered"
                [("error", LAny v);
                 ("path", LString (Path r));
                 ("method", LString (Method r))];
              SetHeader "Content-Type" "application/json";
              WriteHeader StatusInternalServerError] ++
             fst (encode StatusInternalServerError response))
            Returned (final run)
  end.

Definition ratelimitMiddleware (next : Handler S) : Handler S := λ env r s,
  next env r s.

(** The handler [NewServer] gives to [http.Server]: the middleware is
    wrapped around [handler] from the inside out. *)
Definition withMiddleware (handler : Handler S) : Handler S :=
  let handler := corsMiddleware handler in
  let handler := ratelimitMiddleware handler in
  let handler := panicRecoveryMiddleware handler in
  let handler := loggingMiddleware handler in
  handler.

Definition NewServer_Handler : Handler S :=
  let mux := addRoutes NewServeMux in
  withMiddleware (ServeMux_ServeHTTP mux).
End Handlers.

(** * Stated properties and sample data *)

(** The rule as the data model words it: blank, or too long, both judged
    on the trimmed text. *)
Definition violates_trimmed (limit : Z) (s : string) : Prop :=
  TrimSpace s = "" ∨ limit < len (TrimSpace s).

(** The rule [Valid] applies: blank after trimming, or too long as sent. *)
Definition violates (limit : Z) (s : string) : Prop :=
  TrimSpace s = "" ∨ limit < len s.

(** A title of one letter followed by a hundred spaces: its trimmed text
    is the letter alone, yet [Valid] reports it. *)
Definition paddedTitle : CreateBlogRequest.t :=
  CreateBlogRequest.mk ("a" ++ Repeat " " 100) "Valid content" "Valid Author".

Definition staleBlog : Blog.t :=
  Blog.mk "test-id" "Original Title" "Original Content" "Original Author" 10 10.

Definition blogOne : Blog.t := Blog.mk "1" "Blog 1" "Content 1" "Author A" 1 1.
Definition blogTwo : Blog.t := Blog.mk "2" "Blog 2" "Content 2" "Author B" 2 2.
Definition blogThree : Blog.t := Blog.mk "3" "Blog 3" "Content 3" "Author A" 3 3.

Definition oneBlog : gmap string Blog.t := MemoryBlogStore.run [MemoryBlogStore.CallCreate blogOne].

(** A stand-in for encoding/json in the examples: the body "invalid json"
    is rejected, any other body is taken as the title of a request. *)
Definition sampleCreateDecoder : JSONDecoder CreateBlogRequest.t := λ body v,
  if String.eqb body "invalid json"
  then (v, Some "invalid character 'i' looking for beginning of value")
  else (CreateBlogRequest.mk body "Test content" "Test Author", None).

Definition sampleUpdateDecoder : JSONDecoder UpdateBlogRequest.t := λ body v,
  if String.eqb body "invalid json"
  then (v, Some "invalid character 'i' looking for beginning of value")
  else (UpdateBlogRequest.mk (Some body) None, None).

Definition post (body : string) : Request :=
  mkRequest "POST" "/api/v1/blogs" [] body "192.0.2.1:1234" "test-agent".

Definition sampleEnv : Env := mkEnv 1000 1005 1009 (λ i, N.of_nat (17 * i)).

Definition get (path : string) (query : list (string * string)) : Request :=
  mkRequest "GET" path query "" "192.0.2.1:1234" "test-agent".

Definition threeBlogs : gmap string Blog.t :=
  MemoryBlogStore.run
    [MemoryBlogStore.CallCreate blogOne;
     MemoryBlogStore.CallCreate blogTwo;
     MemoryBlogStore.CallCreate blogThree].

(** The property as C2 words it: status 200 and a JSON array that holds
    exactly the stored blogs whose author is X. *)
Definition lists_author_exactly
    (s : gmap string Blog.t) (X : string) (resp : Response) : Prop :=
  StatusCode resp = StatusOK
  ∧ ∃ l : list Blog.t,
      ResponseBody resp = [JSONLine (JArray (toJSON <$> l))]
      ∧ ∀ b, b ∈ l ↔ Blog.Author b = X ∧ ∃ id, s !! id = Some b.

(** The body of the 500 envelope. *)
Definition internalServerError : JSON :=
  JObject [("error", JString "Internal server error")].


(** A handler that panics after it has sent status 200 and some text. *)
Definition writeThenPanic {S : Type} : Handler S := λ env r s,
  mkRun [WriteHeader StatusOK; WriteBody (Text "partial")] (Panicked "boom") s.


(** The calls the chain makes for a preflight request: the three CORS
    headers, status 200, and the record of the logging middleware. *)
Definition preflightOps (env : Env) (r : Request) : list Op :=
  [SetHeader "Access-Control-Allow-Origin" "*";
   SetHeader "Access-Control-Allow-Methods" "GET, POST, PUT, DELETE, OPTIONS";
   SetHeader "Access-Control-Allow-Headers" "Content-Type, Authorization";
   WriteHeader StatusOK;
   LogRecord LevelInfo "request completed"
     [("method", LString (Method r));
      ("path", LString (Path r));
      ("status", LInt StatusOK);
      ("duration", LInt (logEnd env - logStart env));
      ("remote_addr", LString (RemoteAddr r));
      ("user_agent", LString (UserAgent r))]].

(** The body of the health response. *)
Definition statusOk : JSON := JObject [("status", JString "ok")].

Definition request (method path : string) : Request :=
  mkRequest method path [] "" "192.0.2.1:1234" "test-agent".

(** * Further code of the repository *)

(** [func decode[T any](r *http.Request) (T, error)]; [zero] is [var v T]. *)
Definition decode {T} {D : JSONDecoder T} (zero : T) (r : Request) : T * option error :=
  let v := zero in
  match Decode (Body r) v with
  | (v, Some e) => (v, Some (DecodeError e))
  | (v, None) => (v, None)
  end.

(** ** Packages logger and config *)

Module slog.
Inductive Level := LevelDebug | LevelInfo | LevelWarn | LevelError.
End slog.

Module logger.
(** [func ParseLevel(level string) (slog.Level, error)] *)
Definition ParseLevel (level : string) : slog.Level * option error :=
  if String.eqb level "debug" || String.eqb level "DEBUG"
  then (slog.LevelDebug, None)
  else if String.eqb level "info" || String.eqb level "INFO"
  then (slog.LevelInfo, None)
  else if String.eqb level "warn" || String.eqb level "WARN"
          || String.eqb level "warning" || String.eqb level "WARNING"
  then (slog.LevelWarn, None)
  else if String.eqb level "error" || String.eqb level "ERROR"
  then (slog.LevelError, None)
  else (slog.LevelInfo, Some (OtherError ("unknown level: " ++ level))).
End logger.

Module config.
(** [time.Duration] counts nanoseconds. *)
Definition Duration := Z.
Definition Second : Duration := 1000000000.

Record Config := mkConfig {
  Host : string;
  Port : Z;
  LogLevel : slog.Level;
  ReadTimeout : Duration;
  WriteTimeout : Duration;
  ShutdownTimeout : Duration
}.

(** [func parseLogLevel(level string) (slog.Level, error)] *)
Definition parseLogLevel (level : string) : slog.Level * option error :=
  if String.eqb level "debug" || String.eqb level "DEBUG"
  then (slog.LevelDebug, None)
  else if String.eqb level "info" || String.eqb level "INFO"
  then (slog.LevelInfo, None)
  else if String.eqb level "warn" || String.eqb level "WARN"
          || String.eqb level "warning" || String.eqb level "WARNING"
  then (slog.LevelWarn, None)
  else if String.eqb level "error" || String.eqb level "ERROR"
  then (slog.LevelError, None)
  else (slog.LevelInfo, Some (OtherError ("unknown level: " ++ level))).

(** The text [err.Error()] of the errors of this package. *)
Definition errorText (e : error) : string :=
  match e with
  | ErrNotFound => "blog not found"
  | DecodeError cause => "decode json: " ++ cause
  | InvalidError typeName n => "invalid " ++ typeName ++ ": " ++ pretty n ++ " problems"
  | OtherError text => text
  end.

Section Load.
(** [strconv.Atoi] and [time.ParseDuration] of the standard library: the
    value, and the text of the error when there is one. *)
Variable Atoi : string → Z * option string.
Variable ParseDuration : string → Duration * option string.

(** [func Load(getenv func(string) string)], which returns a pointer to
    the Config, or nil and an error: the fields
    are assigned in the order of the source, and the first value that
    does not parse ends the call. *)
Definition Load (getenv : string → string) : result Config :=
  let cfg := mkConfig "localhost" 8080 slog.LevelInfo
                      (30 * Second) (30 * Second) (15 * Second) in
  let cfg :=
    let host := getenv "HOST" in
    if negb (String.eqb host "")
    then mkConfig host (Port cfg) (LogLevel cfg)
                  (ReadTimeout cfg) (WriteTimeout cfg) (ShutdownTimeout cfg)
    else cfg in
  let portStr := getenv "PORT" in
  match (if negb (String.eqb portStr "")
         then match Atoi portStr with
              | (_, Some e) => Err (OtherError ("invalid PORT: " ++ e))
              | (port, None) =>
                  Ok (mkConfig (Host cfg) port (LogLevel cfg)
                               (ReadTimeout cfg) (WriteTimeout cfg) (ShutdownTimeout cfg))
              end
         else Ok cfg) with
  | Err e => Err e
  | Ok cfg =>
  let logLevel := getenv "LOG_LEVEL" in
  match (if negb (String.eqb logLevel "")
         then match parseLogLevel logLevel with
              | (_, Some e) => Err (OtherError ("invalid LOG_LEVEL: " ++ errorText e))
              | (level, None) =>
                  Ok (mkConfig (Host cfg) (Port cfg) level
                               (ReadTimeout cfg) (WriteTimeout cfg) (ShutdownTimeout cfg))
              end
         else Ok cfg) with
  | Err e => Err e
  | Ok cfg =>
  let readTimeoutStr := getenv "READ_TIMEOUT" in
  match (if negb (String.eqb readTimeoutStr "")
         then match ParseDuration readTimeoutStr with
              | (_, Some e) => Err (OtherError ("invalid READ_TIMEOUT: " ++ e))
              | (timeout, None) =>
                  Ok (mkConfig (Host cfg) (Port cfg) (LogLevel cfg)
                               timeout (WriteTimeout cfg) (ShutdownTimeout cfg))
              end
         else Ok cfg) with
  | Err e => Err e
  | Ok cfg =>
  let writeTimeoutStr := getenv "WRITE_TIMEOUT" in
  match (if negb (String.eqb writeTimeoutStr "")
         then match ParseDuration writeTimeoutStr with
              | (_, Some e) => Err (OtherError ("invalid WRITE_TIMEOUT: " ++ e))
              | (timeout, None) =>
                  Ok (mkConfig (Host cfg) (Port cfg) (LogLevel cfg)
                               (ReadTimeout cfg) timeout (ShutdownTimeout cfg))
              end
         else Ok cfg) with
  | Err e => Err e
  | Ok cfg =>
  let shutdownTimeoutStr := getenv "SHUTDOWN_TIMEOUT" in
  match (if negb (String.eqb shutdownTimeoutStr "")
         then match ParseDuration shutdownTimeoutStr with
              | (_, Some e) => Err (OtherError ("invalid SHUTDOWN_TIMEOUT: " ++ e))
              | (timeout, None) =>
                  Ok (mkConfig (Host cfg) (Port cfg) (LogLevel cfg)
                               (ReadTimeout cfg) (WriteTimeout cfg) timeout)
              end
         else Ok cfg) with
  | Err e => Err e
  | Ok cfg => Ok cfg
  end end end end end.
End Load.
End config.

(** ** Stated properties of the further code *)

(** A stored text field in the form the entity asks for: not empty, with
    no white space left to trim, and within its limit in bytes. *)
Definition trimmed_within (limit : Z) (f : string) : Prop :=
  f ≠ "" ∧ TrimSpace f = f ∧ len f ≤ limit.

Definition Blog_wellformed (b : Blog.t) : Prop :=
  trimmed_within 100 (Blog.Title b)
  ∧ trimmed_within 5000 (Blog.Content b)
  ∧ trimmed_within 50 (Blog.Author b).

Definition store_wellformed (s : gmap string Blog.t) : Prop :=
  ∀ id b, s !! id = Some b → Blog_wellformed b.

(** Whether a string begins with a white-space rune. *)
Definition startsSpace (s : string) : bool :=
  match s with
  | EmptyString => false
  | String c1 t1 =>
      asciiSpace c1
      || match t1 with
         | String c2 t2 =>
             space2 c1 c2
             || match t2 with
                | String c3 _ => space3 c1 c2 c3
                | EmptyString => false
                end
         | EmptyString => false
         end
  end.

(** The headers the CORS middleware sets. *)
Definition corsHeaders : list Op :=
  [SetHeader "Access-Control-Allow-Origin" "*";
   SetHeader "Access-Control-Allow-Methods" "GET, POST, PUT, DELETE, OPTIONS";
   SetHeader "Access-Control-Allow-Headers" "Content-Type, Authorization"].

Definition isCorsKey (k : string) : bool :=
  String.eqb k "Access-Control-Allow-Origin"
  || String.eqb k "Access-Control-Allow-Methods"
  || String.eqb k "Access-Control-Allow-Headers".

(** The calls of a run leave the CORS headers alone. *)
Definition keepsCors (l : list Op) : bool :=
  forallb (λ op, match op with
                 | SetHeader k _ => negb (isCorsKey k)
                 | _ => true
                 end) l.

Definition informational (code : Z) : bool :=
  (100 <=? code) && (code <=? 199) && negb (code =? 101).

Definition isWriteHeader (op : Op) : bool :=
  match op with
  | WriteHeader _ => true
  | _ => false
  end.

(** A run that answers once: it calls [WriteHeader] a single time, with a
    final status code, and writes no body before that call.  The result is
    that code. *)
Fixpoint repliesOnce (l : list Op) : option Z :=
  match l with
  | [] => None
  | WriteHeader code :: l' =>
      if informational code || existsb isWriteHeader l' then None else Some code
  | WriteBody _ :: _ => None
  | _ :: l' => repliesOnce l'
  end.

(** The record the logging middleware writes for a request answered with
    [code]. *)
Definition requestCompleted (env : Env) (r : Request) (code : Z)
  : Level * string * list (string * LogValue) :=
  (LevelInfo, "request completed",
   [("method", LString (Method r));
    ("path", LString (Path r));
    ("status", LInt code);
    ("duration", LInt (logEnd env - logStart env));
    ("remote_addr", LString (RemoteAddr r));
    ("user_agent", LString (UserAgent r))]).

(** The prefix under which single blogs are served. *)
Definition blogsPrefix : string := "/api/v1/blogs/".

(** Stand-ins for strconv.Atoi and time.ParseDuration in the examples:
    they know the values the examples use. *)
Definition sampleAtoi (s : string) : Z * option string :=
  if String.eqb s "9090" then (9090, None)
  else (0, Some ("strconv.Atoi: parsing: invalid syntax")).

Definition sampleParseDuration (s : string) : config.Duration * option string :=
  if String.eqb s "5s" then (5 * config.Second, None)
  else (0, Some ("time: invalid duration")).

Definition sampleGetenv (name : string) : string :=
  if String.eqb name "PORT" then "9090"
  else if String.eqb name "READ_TIMEOUT" then "5s"
  else if String.eqb name "LOG_LEVEL" then "debug"
  else "".

Definition badPortGetenv (name : string) : string :=
  if String.eqb name "PORT" then "eighty"
  else if String.eqb name "LOG_LEVEL" then "loud"
  else "".

Definition put (id body : string) : Request :=
  mkRequest "PUT" (blogsPrefix ++ id) [] body "192.0.2.1:1234" "test-agent".

(** The problem, if any, a text field gets from the two tests of
    [CreateBlogRequest.Valid]: the length test comes last and wins. *)
Definition createProblem (field : string) (limit : Z) (limitText : string) (s : string)
  : option string :=
  if limit <? len s
  then Some (field ++ " must be less than " ++ limitText ++ " characters")
  else if String.eqb (TrimSpace s) "" then Some (field ++ " is required")
  else None.

(** In [UpdateBlogRequest.Valid] the blank test comes last and wins. *)
Definition updateProblem (field : string) (limit : Z) (limitText : string)
    (s : option string) : option string :=
  match s with
  | None => None
  | Some s =>
      if String.eqb (TrimSpace s) "" then Some (field ++ " cannot be empty")
      else if limit <? len s
      then Some (field ++ " must be less than " ++ limitText ++ " characters")
      else None
  end.

(** The value a header has for the client: as sent once the status is
    out, as set in the live map before. *)
Definition shown (w : ResponseWriter) (k : string) : option string :=
  if wroteHeader w then sentHeader w !! k else header w !! k.

Definition leavesKey (k : string) (op : Op) : Prop :=
  match op with
  | SetHeader k' _ => k' ≠ k
  | _ => True
  end.

(** The record of the logging middleware, as a call. *)
Definition completed (env : Env) (r : Request) (code : Z) : Op :=
  LogRecord LevelInfo "request completed"
    [("method", LString (Method r));
     ("path", LString (Path r));
     ("status", LInt code);
     ("duration", LInt (logEnd env - logStart env));
     ("remote_addr", LString (RemoteAddr r));
     ("user_agent", LString (UserAgent r))].

(** The calls of the deferred function of the recovery middleware. *)
Definition recoveryOps (r : Request) (v : PanicValue) : list Op :=
  [LogRecord LevelError "panic recovered"
     [("error", LAny v); ("path", LString (Path r)); ("method", LString (Method r))];
   SetHeader "Content-Type" "application/json";
   WriteHeader StatusInternalServerError;
   SetHeader "Content-Type" "application/json";
   WriteHeader StatusInternalServerError;
   WriteBody (JSONLine internalServerError)].

(** A run that returns, answers once and leaves the CORS headers alone. *)
Definition answersOnce {S : Type} (run : Run S) : Prop :=
  outcome run = Returned
  ∧ keepsCors (ops run) = true
  ∧ is_Some (repliesOnce (ops run)).

(** The value a setting ends with: the default when the variable is
    empty, what the parser returns, without error, when it is not. *)
Definition chosen {A E : Type} (raw : string) (parse : string → A * option E)
    (default value : A) : Prop :=
  if String.eqb raw "" then value = default else parse raw = (value, None).

(** A variable that is set and does not parse, with the parser's error. *)
Definition rejected {A E : Type} (raw : string) (parse : string → A * option E)
    (e : E) : Prop :=
  raw ≠ "" ∧ ∃ v, parse raw = (v, Some e).

(** A variable that is unset or parses. *)
Definition accepted {A E : Type} (raw : string) (parse : string → A * option E) : Prop :=
  raw = "" ∨ ∃ v, parse raw = (v, None).

Definition levelSpellings : list string :=
  ["debug"; "DEBUG"; "info"; "INFO"; "warn"; "WARN"; "warning"; "WARNING";
   "error"; "ERROR"].

(** The store after the handler has served the requests one after the
    other, each with its own readings of the environment. *)
Definition serveAll {S : Type} (handler : Handler S) (reqs : list (Env * Request)) (s : S)
  : S :=
  foldl (λ s er, final (handler (fst er) (snd er) s)) s reqs.

(** * Properties *)

(** ** The model on the inputs of the repository's tests *)

Example TrimSpace_test :
  TrimSpace "  Test Title  " = "Test Title"
  ∧ TrimSpace "   " = ""
  ∧ TrimSpace (String (byte 194) (String (byte 160) "x y" ++ String (byte 9) "")) = "x y".
Proof. repeat split; vm_compute; reflexivity. Qed.

Example uuid_String_test :
  uuid.String (uuid.New (λ i, N.of_nat (17 * i)))
  = "00112233-4455-4677-8899-aabbccddeeff".
Proof. vm_compute. reflexivity. Qed.

Example CreateBlogRequest_Valid_test :
  CreateBlogRequest.Valid (CreateBlogRequest.mk "Valid Title" "Valid content" "Valid Author") = ∅
  ∧ dom (CreateBlogRequest.Valid (CreateBlogRequest.mk "" "" ""))
    = {["title"; "content"; "author"]}
  ∧ dom (CreateBlogRequest.Valid
           (CreateBlogRequest.mk (Repeat "a" 101) "Valid content" "Valid Author"))
    = {["title"]}.
Proof. repeat split; vm_compute; reflexivity. Qed.

Example UpdateBlogRequest_Valid_test :
  UpdateBlogRequest.Valid (UpdateBlogRequest.mk None None) = ∅
  ∧ dom (UpdateBlogRequest.Valid (UpdateBlogRequest.mk (Some "") (Some "")))
    = {["title"; "content"]}.
Proof. repeat split; vm_compute; reflexivity. Qed.

(** ** Validation *)

Lemma eqb_empty_violates (limit : Z) (s : string) :
  (String.eqb (TrimSpace s) "" || (limit <? len s)) = true ↔ violates limit s.
Proof.
  unfold violates. rewrite orb_true_iff, String.eqb_eq, Z.ltb_lt. reflexivity.
Qed.

(** One step of [Valid]: a conditional assignment to the problems map. *)
Lemma lookup_cond_insert (c : bool) (k k' v : string) (m : StringMap) :
  is_Some ((if c then <[k := v]> m else m) !! k')
  ↔ (c = true ∧ k = k') ∨ is_Some (m !! k').
Proof.
  destruct c.
  - destruct (decide (k = k')) as [->|Hne].
    + rewrite lookup_insert_eq. split; [left; done | intros _; eauto].
    + rewrite lookup_insert_ne by done. split; [tauto | intros [[_ ?]|?]; done].
  - split; [tauto | intros [[? _]|?]; done].
Qed.

(** C1, as stated, fails: [paddedTitle] does not violate the rule over the
    trimmed text (it is not blank and has one character after trimming),
    and [Valid] reports a problem for its title all the same. *)
Lemma Valid_padded_title_reported :
  ¬ (is_Some (CreateBlogRequest.Valid paddedTitle !! "title")
     ↔ violates_trimmed 100 (CreateBlogRequest.Title paddedTitle)).
Proof.
  intros [Hrep _].
  assert (Hsome : is_Some (CreateBlogRequest.Valid paddedTitle !! "title")).
  { vm_compute. eauto. }
  destruct (Hrep Hsome) as [Hblank | Hlong].
  - vm_compute in Hblank. discriminate Hblank.
  - vm_compute in Hlong. discriminate Hlong.
Qed.

(** C1, amended: for every CreateBlogRequest, [Valid] reports a problem for
    a field exactly when the field is blank after trimming or its text as
    sent, untrimmed, is longer than the limit in bytes (100 for title, 5000
    for content, 50 for author); no other key is reported.  The same rule
    holds for the present fields of every UpdateBlogRequest, and an absent
    field is never reported. *)
Theorem Valid_reports_blank_or_raw_length
    (r : CreateBlogRequest.t) (u : UpdateBlogRequest.t) :
  (is_Some (CreateBlogRequest.Valid r !! "title")
     ↔ violates 100 (CreateBlogRequest.Title r))
  ∧ (is_Some (CreateBlogRequest.Valid r !! "content")
     ↔ violates 5000 (CreateBlogRequest.Content r))
  ∧ (is_Some (CreateBlogRequest.Valid r !! "author")
     ↔ violates 50 (CreateBlogRequest.Author r))
  ∧ (∀ k, is_Some (CreateBlogRequest.Valid r !! k)
          → k = "title" ∨ k = "content" ∨ k = "author")
  ∧ (is_Some (UpdateBlogRequest.Valid u !! "title")
     ↔ ∃ t, UpdateBlogRequest.Title u = Some t ∧ violates 100 t)
  ∧ (is_Some (UpdateBlogRequest.Valid u !! "content")
     ↔ ∃ c, UpdateBlogRequest.Content u = Some c ∧ violates 5000 c)
  ∧ (∀ k, is_Some (UpdateBlogRequest.Valid u !! k) → k = "title" ∨ k = "content").
Proof.
  assert (Hempty : ∀ k : string, is_Some ((∅ : StringMap) !! k) ↔ False).
  { intros k. rewrite lookup_empty. split; [intros [? ?]; discriminate | tauto]. }
  repeat split.
  - unfold CreateBlogRequest.Valid.
    rewrite !lookup_cond_insert, Hempty, <- eqb_empty_violates, orb_true_iff.
    intuition congruence.
  - rewrite <- eqb_empty_violates, orb_true_iff. unfold CreateBlogRequest.Valid.
    rewrite !lookup_cond_insert, Hempty. intuition congruence.
  - unfold CreateBlogRequest.Valid.
    rewrite !lookup_cond_insert, Hempty, <- eqb_empty_violates, orb_true_iff.
    intuition congruence.
  - rewrite <- eqb_empty_violates, orb_true_iff. unfold CreateBlogRequest.Valid.
    rewrite !lookup_cond_insert, Hempty. intuition congruence.
  - unfold CreateBlogRequest.Valid.
    rewrite !lookup_cond_insert, Hempty, <- eqb_empty_violates, orb_true_iff.
    intuition congruence.
  - rewrite <- eqb_empty_violates, orb_true_iff. unfold CreateBlogRequest.Valid.
    rewrite !lookup_cond_insert, Hempty. intuition congruence.
  - intros k. unfold CreateBlogRequest.Valid.
    rewrite !lookup_cond_insert, Hempty. intuition congruence.
  - unfold UpdateBlogRequest.Valid. destruct (UpdateBlogRequest.Title u) as [t|].
    + destruct (UpdateBlogRequest.Content u);
        rewrite !lookup_cond_insert, Hempty; intros H; exists t;
        rewrite <- eqb_empty_violates, orb_true_iff; intuition congruence.
    + destruct (UpdateBlogRequest.Content u);
        rewrite ?lookup_cond_insert, Hempty; intuition congruence.
  - intros (t & Ht & Hv). apply eqb_empty_violates, orb_true_iff in Hv.
    unfold UpdateBlogRequest.Valid. rewrite Ht.
    destruct (UpdateBlogRequest.Content u);
      rewrite !lookup_cond_insert, Hempty; intuition congruence.
  - unfold UpdateBlogRequest.Valid. destruct (UpdateBlogRequest.Content u) as [c|].
    + destruct (UpdateBlogRequest.Title u);
        rewrite !lookup_cond_insert, Hempty; intros H; exists c;
        rewrite <- eqb_empty_violates, orb_true_iff; intuition congruence.
    + destruct (UpdateBlogRequest.Title u);
        rewrite ?lookup_cond_insert, Hempty; intuition congruence.
  - intros (c & Hc & Hv). apply eqb_empty_violates, orb_true_iff in Hv.
    unfold UpdateBlogRequest.Valid. rewrite Hc.
    destruct (UpdateBlogRequest.Title u);
      rewrite !lookup_cond_insert, Hempty; intuition congruence.
  - intros k. unfold UpdateBlogRequest.Valid.
    destruct (UpdateBlogRequest.Title u), (UpdateBlogRequest.Content u);
      rewrite ?lookup_cond_insert, Hempty; intuition congruence.
Qed.

(** The limit counts bytes: fifty-one copies of the two-byte letter
    e-acute make a title of 102 bytes, which is reported. *)
Example Valid_counts_bytes :
  let title := String.concat "" (replicate 51 (String (byte 195) (String (byte 169) ""))) in
  len title = 102
  ∧ is_Some (CreateBlogRequest.Valid
               (CreateBlogRequest.mk title "Valid content" "Valid Author") !! "title").
Proof. split; vm_compute; eauto. Qed.

(** ** Blog.Update *)

(** C4, as stated, fails: a blog whose [UpdatedAt] is 10, updated when the
    clock reads 5 (a wall clock may stand still or be set back), gets an
    [UpdatedAt] that is not greater than the previous one. *)
Lemma Blog_Update_clock_not_later :
  ¬ (Blog.UpdatedAt staleBlog
     < Blog.UpdatedAt (Blog_Update 5 staleBlog (UpdateBlogRequest.mk None None))).
Proof. vm_compute. discriminate. Qed.

(** C4, amended: for every Blog b, every UpdateBlogRequest u and every
    clock reading, Blog.Update overwrites exactly the present fields of u
    with their trimmed values, leaves an absent field unchanged, leaves id,
    author and createdAt unchanged, and always sets updatedAt to the clock
    reading, also when both fields of u are absent; the new updatedAt is
    strictly greater than the previous one whenever the clock reads later
    than the previous updatedAt. *)
Theorem Blog_Update_frame (now : Time) (b : Blog.t) (u : UpdateBlogRequest.t) :
  let b' := Blog_Update now b u in
  Blog.Title b' = match UpdateBlogRequest.Title u with
                  | Some title => TrimSpace title
                  | None => Blog.Title b
                  end
  ∧ Blog.Content b' = match UpdateBlogRequest.Content u with
                      | Some content => TrimSpace content
                      | None => Blog.Content b
                      end
  ∧ Blog.ID b' = Blog.ID b
  ∧ Blog.Author b' = Blog.Author b
  ∧ Blog.CreatedAt b' = Blog.CreatedAt b
  ∧ Blog.UpdatedAt b' = now
  ∧ (Blog.UpdatedAt b < now → Blog.UpdatedAt b < Blog.UpdatedAt b').
Proof.
  unfold Blog_Update.
  destruct (UpdateBlogRequest.Title u), (UpdateBlogRequest.Content u);
    cbn; repeat split; trivial.
Qed.

Lemma Blog_Update_frame_witness :
  Blog.UpdatedAt staleBlog < 11
  ∧ Blog.UpdatedAt staleBlog
    < Blog.UpdatedAt (Blog_Update 11 staleBlog (UpdateBlogRequest.mk (Some "  New Title  ") None)).
Proof.
  split; [reflexivity |].
  apply (Blog_Update_frame 11 staleBlog (UpdateBlogRequest.mk (Some "  New Title  ") None)).
  reflexivity.
Defined.

(** ** MemoryBlogStore *)

Module MemoryBlogStoreFacts.
Import MemoryBlogStore.

(** C6: for every store state and every id not present, Delete(id) and
    Update(id, blog) both return ErrNotFound and leave the map as it was;
    for every id present, Delete(id) returns no error, removes that entry
    and no other, and GetByID(id) on the resulting store returns
    ErrNotFound. *)
Theorem absent_id_NotFound_present_id_deleted
    (s : gmap string Blog.t) (id : string) (blog : Blog.t) :
  (s !! id = None →
     Delete s id = (s, Some ErrNotFound)
     ∧ Update s id blog = (s, Some ErrNotFound))
  ∧ (is_Some (s !! id) →
     ∃ s', Delete s id = (s', None)
           ∧ s' !! id = None
           ∧ (∀ k, k ≠ id → s' !! k = s !! k)
           ∧ GetByID s' id = Err ErrNotFound).
Proof.
  split.
  - intros Hnone. unfold Delete, Update. rewrite Hnone. done.
  - intros [b Hb]. exists (delete id s). unfold Delete, GetByID. rewrite Hb.
    rewrite lookup_delete_eq. repeat split; trivial.
    intros k Hk. by rewrite lookup_delete_ne.
Qed.

Lemma absent_id_NotFound_present_id_deleted_witness :
  (Delete oneBlog "2" = (oneBlog, Some ErrNotFound)
   ∧ Update oneBlog "2" blogTwo = (oneBlog, Some ErrNotFound))
  ∧ (∃ s', Delete oneBlog "1" = (s', None)
           ∧ s' !! "1" = None
           ∧ (∀ k, k ≠ "1" → s' !! k = oneBlog !! k)
           ∧ GetByID s' "1" = Err ErrNotFound).
Proof.
  split.
  - apply (absent_id_NotFound_present_id_deleted oneBlog "2" blogTwo).
    vm_compute. reflexivity.
  - apply (absent_id_NotFound_present_id_deleted oneBlog "1" blogTwo).
    exists blogOne. vm_compute. reflexivity.
Defined.

(** *** Uniqueness of ids *)

Lemma keyed_unique (s : gmap string Blog.t) : keyed_by_id s → unique_ids s.
Proof.
  intros Hkey k1 k2 b1 b2 H1 H2 Heq.
  rewrite <- (Hkey _ _ H1), <- (Hkey _ _ H2). exact Heq.
Qed.

Lemma keyed_insert (s : gmap string Blog.t) (blog : Blog.t) :
  keyed_by_id s → keyed_by_id (<[Blog.ID blog := blog]> s).
Proof.
  intros Hkey k b. rewrite lookup_insert. case_decide as Hk.
  - intros [= <-]. exact Hk.
  - apply Hkey.
Qed.

Lemma keyed_delete (s : gmap string Blog.t) (id : string) :
  keyed_by_id s → keyed_by_id (delete id s).
Proof.
  intros Hkey k b. rewrite lookup_delete. case_decide; [discriminate | apply Hkey].
Qed.

Lemma exec_keyed (s : gmap string Blog.t) (c : call) :
  own_id c → keyed_by_id s → keyed_by_id (exec s c).
Proof.
  destruct c as [blog | id blog | id]; cbn; intros Hown Hkey.
  - by apply keyed_insert.
  - unfold Update. destruct (s !! id); cbn; [| exact Hkey].
    rewrite <- Hown. by apply keyed_insert.
  - unfold Delete. destruct (s !! id); cbn; [| exact Hkey].
    by apply keyed_delete.
Qed.

Lemma foldl_exec_keyed (cs : list call) (s : gmap string Blog.t) :
  Forall own_id cs → keyed_by_id s → keyed_by_id (foldl exec s cs).
Proof.
  revert s. induction cs as [| c cs IH]; intros s Hall Hkey; cbn; [exact Hkey |].
  inversion Hall as [| ? ? Hc Hcs]; subst.
  apply IH; [exact Hcs |]. by apply exec_keyed.
Qed.

(** C3, as stated, fails: after Create(blogOne), Create(blogTwo) and
    Update("1", blogTwo), whose blog does not carry the id it is stored
    under, the entries "1" and "2" both hold a blog with id "2". *)
Lemma Update_foreign_blog_duplicates_id :
  ¬ unique_ids (run [CallCreate blogOne; CallCreate blogTwo; CallUpdate "1" blogTwo]).
Proof.
  intros Huniq.
  assert (H12 : ("1" : string) = "2"); [| discriminate H12].
  apply (Huniq "1" "2" blogTwo blogTwo); vm_compute; reflexivity.
Qed.

(** C3, amended: in every store state reached from the empty
    MemoryBlogStore by a sequence of Create, Update and Delete calls in
    which each Update passes a blog whose id is the id it is called with
    (Create and Delete with arbitrary arguments), no two stored entries
    hold blogs with the same id. *)
Theorem reachable_unique_ids (cs : list call) :
  Forall own_id cs → unique_ids (run cs).
Proof.
  intros Hall. apply keyed_unique, foldl_exec_keyed; [exact Hall |].
  intros k b. unfold NewMemoryBlogStore. rewrite lookup_empty. discriminate.
Qed.

Lemma reachable_unique_ids_witness :
  unique_ids (run [CallCreate blogOne; CallCreate blogTwo;
                   CallUpdate "1" blogOne; CallDelete "2"]).
Proof.
  apply (reachable_unique_ids
           [CallCreate blogOne; CallCreate blogTwo; CallUpdate "1" blogOne; CallDelete "2"]).
  repeat constructor.
Defined.
End MemoryBlogStoreFacts.

(** ** decodeValid *)

Section Codec.
Context {T : Type} {V : Validator T} {D : JSONDecoder T}.

Lemma decodeValid_decode_error (r : Request) (v : T) (e : string) :
  Decode (Body r) zeroValue = (v, Some e) →
  decodeValid r = mkDecoded v None (Some (DecodeError e)) [].
Proof. intros Hdec. unfold decodeValid. rewrite Hdec. reflexivity. Qed.

Lemma decodeValid_invalid (r : Request) (v : T) :
  Decode (Body r) zeroValue = (v, None) →
  Valid v ≠ ∅ →
  decodeValid r
  = mkDecoded v (Some (Valid v)) (Some (InvalidError typeName (size (Valid v)))) [v].
Proof.
  intros Hdec Hne. unfold decodeValid. rewrite Hdec.
  apply map_size_non_empty_iff in Hne.
  destruct (size (Valid v)) eqn:Hsize; [done |]. reflexivity.
Qed.

Lemma decodeValid_valid (r : Request) (v : T) :
  Decode (Body r) zeroValue = (v, None) →
  Valid v = ∅ →
  decodeValid r = mkDecoded v None None [v].
Proof.
  intros Hdec Hempty. unfold decodeValid. rewrite Hdec, Hempty, map_size_empty.
  reflexivity.
Qed.

(** C5: for every request body, decodeValid returns, when the JSON
    decoder fails, a non-nil error with nil problems, and Valid has not
    been called; when decoding succeeds and Valid returns a non-empty
    problems map, the decoded value, that map (non-nil) and a non-nil
    error that names the type and the number of problems; when decoding
    succeeds and Valid returns no problem, the decoded value with nil
    problems and nil error. *)
Theorem decodeValid_outcomes (r : Request) :
  (∀ v e, Decode (Body r) zeroValue = (v, Some e) →
     value (decodeValid r) = v
     ∧ problems (decodeValid r) = None
     ∧ err (decodeValid r) = Some (DecodeError e)
     ∧ validCalls (decodeValid r) = [])
  ∧ (∀ v, Decode (Body r) zeroValue = (v, None) → Valid v ≠ ∅ →
     value (decodeValid r) = v
     ∧ problems (decodeValid r) = Some (Valid v)
     ∧ err (decodeValid r) = Some (InvalidError typeName (size (Valid v)))
     ∧ validCalls (decodeValid r) = [v])
  ∧ (∀ v, Decode (Body r) zeroValue = (v, None) → Valid v = ∅ →
     value (decodeValid r) = v
     ∧ problems (decodeValid r) = None
     ∧ err (decodeValid r) = None
     ∧ validCalls (decodeValid r) = [v]).
Proof.
  split; [| split].
  - intros v e Hdec. rewrite (decodeValid_decode_error r v e Hdec). done.
  - intros v Hdec Hne. rewrite (decodeValid_invalid r v Hdec Hne). done.
  - intros v Hdec Hempty. rewrite (decodeValid_valid r v Hdec Hempty). done.
Qed.
End Codec.

Lemma decodeValid_outcomes_witness :
  (problems (decodeValid (T := CreateBlogRequest.t) (D := sampleCreateDecoder)
                         (post "invalid json")) = None
   ∧ validCalls (decodeValid (T := CreateBlogRequest.t) (D := sampleCreateDecoder)
                             (post "invalid json")) = [])
  ∧ (problems (decodeValid (T := CreateBlogRequest.t) (D := sampleCreateDecoder)
                           (post "   "))
     = Some {["title" := "title is required"]})
  ∧ (err (decodeValid (T := CreateBlogRequest.t) (D := sampleCreateDecoder)
                      (post "Test Title")) = None).
Proof.
  pose proof (decodeValid_outcomes (T := CreateBlogRequest.t)
                (D := sampleCreateDecoder) (post "invalid json")) as (H1 & _ & _).
  pose proof (decodeValid_outcomes (T := CreateBlogRequest.t)
                (D := sampleCreateDecoder) (post "   ")) as (_ & H2 & _).
  pose proof (decodeValid_outcomes (T := CreateBlogRequest.t)
                (D := sampleCreateDecoder) (post "Test Title")) as (_ & _ & H3).
  split; [| split].
  - specialize (H1 (CreateBlogRequest.mk "" "" "")
                   "invalid character 'i' looking for beginning of value" eq_refl).
    destruct H1 as (_ & Hp & _ & Hc). split; [exact Hp | exact Hc].
  - specialize (H2 (CreateBlogRequest.mk "   " "Test content" "Test Author") eq_refl).
    destruct H2 as (_ & Hp & _); [vm_compute; discriminate |].
    rewrite Hp. vm_compute. reflexivity.
  - specialize (H3 (CreateBlogRequest.mk "Test Title" "Test content" "Test Author") eq_refl).
    destruct H3 as (_ & _ & He & _); [vm_compute; reflexivity |]. exact He.
Defined.

(** When decoding fails the result does not depend on the validator. *)
Lemma decodeValid_failure_any_validator {T : Type} (V V' : Validator T)
    (D : JSONDecoder T) (r : Request) (v : T) (e : string) :
  @zeroValue T V = @zeroValue T V' →
  Decode (Body r) (@zeroValue T V) = (v, Some e) →
  decodeValid (V := V) r = decodeValid (V := V') r.
Proof.
  intros Hzero Hdec. unfold decodeValid. rewrite <- Hzero, Hdec. reflexivity.
Qed.

(** ** The handlers over MemoryBlogStore *)

Lemma uuid_String_nonempty (entropy : nat → N) :
  uuid.String (uuid.New entropy) ≠ "".
Proof.
  unfold uuid.New, uuid.String. cbn [seq fmap list_fmap alter list_alter take drop].
  cbn [uuid.encodeHex String.append]. discriminate.
Qed.

Lemma uuid_String_length (entropy : nat → N) :
  String.length (uuid.String (uuid.New entropy)) = 36%nat.
Proof.
  unfold uuid.New, uuid.String. cbn [seq fmap list_fmap alter list_alter take drop].
  cbn [uuid.encodeHex String.append String.length]. reflexivity.
Qed.

Section MemoryServer.
Variable range : MemoryBlogStore.t → list (string * Blog.t).
Context {DC : JSONDecoder CreateBlogRequest.t} {DU : JSONDecoder UpdateBlogRequest.t}.

(** C7: for every POST request whose body decodes to a create request
    for which Valid reports no problem, the create handler responds 201
    with the JSON of a Blog whose id is non-empty (the 36 characters of a
    UUID), whose title, content and author are the request's values with
    surrounding white space trimmed, and whose createdAt equals its
    updatedAt, both the one clock reading; that blog is stored under its
    id. *)
Theorem handleBlogsCreate_created
    (env : Env) (r : Request) (s : gmap string Blog.t) (req : CreateBlogRequest.t) :
  Method r = "POST" →
  Decode (Body r) zeroValue = (req, None) →
  CreateBlogRequest.Valid req = ∅ →
  ∃ blog : Blog.t,
    let run := handleBlogsCreate (BS := MemoryBlogStore.memory_BlogStore range) env r s in
    outcome run = Returned
    ∧ StatusCode (respond (ops run)) = StatusCreated
    ∧ ResponseBody (respond (ops run)) = [JSONLine (toJSON blog)]
    ∧ Header (respond (ops run)) !! "Content-Type" = Some "application/json"
    ∧ Blog.ID blog ≠ ""
    ∧ Blog.Title blog = TrimSpace (CreateBlogRequest.Title req)
    ∧ Blog.Content blog = TrimSpace (CreateBlogRequest.Content req)
    ∧ Blog.Author blog = TrimSpace (CreateBlogRequest.Author req)
    ∧ Blog.CreatedAt blog = Blog.UpdatedAt blog
    ∧ Blog.CreatedAt blog = now env
    ∧ final run = <[Blog.ID blog := blog]> s.
Proof.
  intros Hmethod Hdec Hvalid.
  exists (NewBlog (now env) (uuid.New (entropy env)) req).
  unfold handleBlogsCreate. rewrite Hmethod. cbn [String.eqb Ascii.eqb Bool.eqb negb].
  rewrite (decodeValid_valid r req Hdec Hvalid). cbn.
  repeat split; try reflexivity.
  apply uuid_String_nonempty.
Qed.

Lemma foldl_append_filter (author : string) (l : list (string * Blog.t))
    (acc : slice Blog.t) :
  elems (foldl (λ blogs kv,
                  if String.eqb (Blog.Author (snd kv)) author
                  then append blogs (snd kv) else blogs) acc l)
  = (elems acc ++ filter (λ b, Blog.Author b = author) (snd <$> l))%list.
Proof.
  revert acc. induction l as [| [k b] l IH]; intros acc; cbn [foldl fmap list_fmap].
  - rewrite filter_nil, app_nil_r. reflexivity.
  - rewrite IH, filter_cons. cbn [snd].
    destruct (String.eqb_spec (Blog.Author b) author) as [Heq | Hne].
    + rewrite decide_True by exact Heq.
      replace (elems (append acc b)) with (elems acc ++ [b])%list by reflexivity.
      rewrite <- app_assoc. reflexivity.
    + rewrite decide_False by exact Hne. reflexivity.
Qed.

(** [GetByAuthor] never fails, and the slice it returns holds the stored
    blogs of that author, each entry once. *)
Lemma GetByAuthor_filter (s : gmap string Blog.t) (author : string) :
  MemoryBlogStore.range_ok range →
  ∃ blogs : slice Blog.t,
    MemoryBlogStore.GetByAuthor range s author = Ok blogs
    ∧ elems blogs ≡ₚ filter (λ b, Blog.Author b = author) (snd <$> map_to_list s).
Proof.
  intros Hrange. eexists. split; [reflexivity |].
  rewrite foldl_append_filter. cbn [elems default app].
  rewrite (Hrange s). reflexivity.
Qed.

(** C2, amended: for every store state and every non-empty author query
    value X, the list handler answers GET /api/v1/blogs?author=X with
    status 200 and a body that is the JSON encoding of the slice holding
    exactly the stored blogs whose author is string-equal (case-sensitive)
    to X, each stored entry once, in the order the map was ranged over;
    the store is left unchanged.  (For the empty value the handler does
    not filter: it returns all stored blogs.) *)
Theorem handleBlogsGet_by_author
    (env : Env) (r : Request) (s : gmap string Blog.t) (X : string) :
  MemoryBlogStore.range_ok range →
  Method r = "GET" →
  Values_Get (Query r) "author" = X →
  X ≠ "" →
  ∃ blogs : slice Blog.t,
    let run := handleBlogsGet (BS := MemoryBlogStore.memory_BlogStore range) env r s in
    outcome run = Returned
    ∧ final run = s
    ∧ StatusCode (respond (ops run)) = StatusOK
    ∧ ResponseBody (respond (ops run)) = [JSONLine (toJSON blogs)]
    ∧ elems blogs ≡ₚ filter (λ b, Blog.Author b = X) (snd <$> map_to_list s)
    ∧ (∀ b, b ∈ elems blogs ↔ Blog.Author b = X ∧ ∃ id, s !! id = Some b).
Proof.
  intros Hrange Hmethod Hquery Hne.
  destruct (GetByAuthor_filter s X Hrange) as (blogs & Hget & Hperm).
  exists blogs. unfold handleBlogsGet. rewrite Hmethod, Hquery.
  cbn [String.eqb Ascii.eqb Bool.eqb negb].
  destruct (String.eqb_spec X "") as [HX | _]; [contradiction |].
  cbn [negb]. change (store.GetByAuthor s X) with (MemoryBlogStore.GetByAuthor range s X).
  rewrite Hget. cbn.
  do 4 (split; [reflexivity |]). split; [exact Hperm |].
  intros b. rewrite Hperm, list_elem_of_filter, list_elem_of_fmap. split.
  - intros (Hauthor & [k b'] & -> & Hin). split; [exact Hauthor |].
    exists k. by apply elem_of_map_to_list.
  - intros (Hauthor & id & Hid). split; [exact Hauthor |].
    exists (id, b). split; [reflexivity |]. by apply elem_of_map_to_list.
Qed.

(** When no stored blog has the author asked for, the slice [GetByAuthor]
    returns is the nil slice it started from, and the body is the JSON
    [null]. *)
Lemma handleBlogsGet_no_match
    (env : Env) (r : Request) (s : gmap string Blog.t) (X : string) :
  MemoryBlogStore.range_ok range →
  Method r = "GET" →
  Values_Get (Query r) "author" = X →
  X ≠ "" →
  (∀ id b, s !! id = Some b → Blog.Author b ≠ X) →
  ResponseBody (respond (ops (handleBlogsGet (BS := MemoryBlogStore.memory_BlogStore range) env r s))) = [JSONLine JNull].
Proof.
  intros Hrange Hmethod Hquery Hne Hnone.
  unfold handleBlogsGet. rewrite Hmethod, Hquery.
  cbn [String.eqb Ascii.eqb Bool.eqb negb].
  destruct (String.eqb_spec X "") as [HX | _]; [contradiction |].
  cbn [negb]. change (store.GetByAuthor s X) with (MemoryBlogStore.GetByAuthor range s X).
  unfold MemoryBlogStore.GetByAuthor.
  assert (Hnil : ∀ l : list (string * Blog.t),
             (∀ kv, kv ∈ l → Blog.Author (snd kv) ≠ X) →
             foldl (λ blogs kv,
                      if String.eqb (Blog.Author (snd kv)) X
                      then append blogs (snd kv) else blogs) None l = None).
  { induction l as [| kv l IH]; intros Hl; cbn [foldl]; [reflexivity |].
    destruct (String.eqb_spec (Blog.Author (snd kv)) X) as [Heq | _].
    - exfalso. apply (Hl kv); [left | exact Heq].
    - apply IH. intros kv' Hin. apply Hl. by right. }
  rewrite Hnil; [reflexivity |].
  intros [k b] Hin. rewrite (Hrange s) in Hin.
  apply elem_of_map_to_list in Hin. by apply (Hnone k).
Qed.
End MemoryServer.

(** *** Concrete runs *)

(** The order in which stdpp enumerates a map is one admissible range
    order. *)
Lemma map_to_list_range_ok : MemoryBlogStore.range_ok map_to_list.
Proof. intros s. reflexivity. Qed.

Lemma handleBlogsCreate_created_witness :
  ∃ blog : Blog.t,
    ResponseBody (respond (ops (handleBlogsCreate
                                  (BS := MemoryBlogStore.memory_BlogStore map_to_list)
                                  (DC := sampleCreateDecoder)
                                  sampleEnv (post "  Test Title  ") threeBlogs)))
    = [JSONLine (toJSON blog)]
    ∧ Blog.ID blog ≠ ""
    ∧ Blog.Title blog = "Test Title"
    ∧ Blog.CreatedAt blog = Blog.UpdatedAt blog.
Proof.
  destruct (handleBlogsCreate_created map_to_list (DC := sampleCreateDecoder)
              sampleEnv (post "  Test Title  ") threeBlogs
              (CreateBlogRequest.mk "  Test Title  " "Test content" "Test Author"))
    as (blog & _ & _ & Hbody & _ & Hid & Htitle & _ & _ & Htime & _).
  - reflexivity.
  - reflexivity.
  - vm_compute. reflexivity.
  - exists blog. repeat split; trivial.
Defined.

Lemma handleBlogsGet_by_author_witness :
  ∃ blogs : slice Blog.t,
    ResponseBody (respond (ops (handleBlogsGet
                                  (BS := MemoryBlogStore.memory_BlogStore map_to_list)
                                  sampleEnv
                                  (get "/api/v1/blogs" [("author", "Author A")])
                                  threeBlogs)))
    = [JSONLine (toJSON blogs)]
    ∧ elems blogs ≡ₚ [blogOne; blogThree].
Proof.
  destruct (handleBlogsGet_by_author map_to_list sampleEnv
              (get "/api/v1/blogs" [("author", "Author A")]) threeBlogs "Author A")
    as (blogs & _ & _ & _ & Hbody & Hperm & _).
  - exact map_to_list_range_ok.
  - reflexivity.
  - reflexivity.
  - discriminate.
  - exists blogs. split; [exact Hbody |].
    rewrite Hperm. vm_compute. apply perm_swap.
Defined.

Lemma Blog_toJSON_inj (b b' : Blog.t) : toJSON b = toJSON b' → b = b'.
Proof. destruct b, b'. intros [= -> -> -> -> -> ->]. reflexivity. Qed.

(** C2, as stated, fails for the empty author value: on a store holding
    one blog by "Author A", GET /api/v1/blogs?author= is answered with
    that blog, whose author is not the empty string. *)
Lemma handleBlogsGet_empty_author_lists_all :
  ¬ lists_author_exactly oneBlog ""
      (respond (ops (handleBlogsGet
                       (BS := MemoryBlogStore.memory_BlogStore map_to_list)
                       sampleEnv (get "/api/v1/blogs" [("author", "")])
                       oneBlog))).
Proof.
  intros (_ & l & Hbody & Hl).
  assert (Hrun : ResponseBody
                   (respond (ops (handleBlogsGet
                                    (BS := MemoryBlogStore.memory_BlogStore map_to_list)
                                    sampleEnv (get "/api/v1/blogs" [("author", "")])
                                    oneBlog)))
                 = [JSONLine (JArray [toJSON blogOne])]).
  { vm_compute. reflexivity. }
  rewrite Hrun in Hbody.
  destruct l as [| b [| b' l']]; try discriminate Hbody.
  cbn [fmap list_fmap] in Hbody.
  assert (Hb : toJSON b = toJSON blogOne) by congruence.
  apply Blog_toJSON_inj in Hb. subst b.
  destruct (Hl blogOne) as [Hauthor _].
  destruct Hauthor as [Hauthor _]; [left |]. discriminate Hauthor.
Qed.

(** ** The response writer *)

Lemma written_app (l1 l2 : list Op) :
  written (l1 ++ l2) = foldl step (written l1) l2.
Proof. unfold written. apply foldl_app. Qed.



(** ** Middleware *)

Section Middleware.
Context {S : Type}.


End Middleware.



Example writeThenPanic_response :
  respond (ops (panicRecoveryMiddleware (S := unit) writeThenPanic
                  sampleEnv (get "/test" []) tt))
  = mkResponse StatusOK ∅ [Text "partial"; JSONLine internalServerError].
Proof. vm_compute. reflexivity. Qed.

Section Server.
Context {S : Type} {BS : store.BlogStore S}.
Context {DC : JSONDecoder CreateBlogRequest.t} {DU : JSONDecoder UpdateBlogRequest.t}.

Lemma withMiddleware_OPTIONS (next : Handler S) (env : Env) (r : Request) (s : S) :
  Method r = "OPTIONS" →
  withMiddleware next env r s = mkRun (preflightOps env r) Returned s.
Proof.
  intros Hmethod.
  unfold withMiddleware, loggingMiddleware, panicRecoveryMiddleware,
    ratelimitMiddleware, corsMiddleware, preflightOps.
  rewrite Hmethod. reflexivity.
Qed.

(** C9: for every request whose method is OPTIONS, whatever its path, the
    handler NewServer builds responds with status 200 (so never 405) and
    an empty body, sends the three permissive CORS headers, leaves the
    store as it was, and its run is the same whatever handler sits inside
    the middleware chain: the router and the handlers are not invoked. *)
Theorem NewServer_OPTIONS_short_circuit (env : Env) (r : Request) (s : S) :
  Method r = "OPTIONS" →
  let run := NewServer_Handler env r s in
  outcome run = Returned
  ∧ final run = s
  ∧ StatusCode (respond (ops run)) = StatusOK
  ∧ StatusCode (respond (ops run)) ≠ StatusMethodNotAllowed
  ∧ ResponseBody (respond (ops run)) = []
  ∧ Header (respond (ops run)) !! "Access-Control-Allow-Origin" = Some "*"
  ∧ Header (respond (ops run)) !! "Access-Control-Allow-Methods"
    = Some "GET, POST, PUT, DELETE, OPTIONS"
  ∧ Header (respond (ops run)) !! "Access-Control-Allow-Headers"
    = Some "Content-Type, Authorization"
  ∧ (∀ next : Handler S, withMiddleware next env r s = run).
Proof.
  intros Hmethod. unfold NewServer_Handler.
  rewrite (withMiddleware_OPTIONS _ env r s Hmethod). cbn [outcome final ops].
  do 2 (split; [reflexivity |]).
  split; [reflexivity |]. split; [discriminate |].
  split; [reflexivity |].
  do 3 (split; [vm_compute; reflexivity |]).
  intros next. apply withMiddleware_OPTIONS. exact Hmethod.
Qed.

Lemma handleHealthz_run (env : Env) (r : Request) (s : S) :
  handleHealthz env r s
  = mkRun [SetHeader "Content-Type" "application/json";
           WriteHeader StatusOK;
           WriteBody (JSONLine statusOk)] Returned s.
Proof. unfold handleHealthz, encode. f_equal. Qed.

(** C10: the health handler never looks at the method: for every request,
    whatever its method (GET, POST, PUT, DELETE, PATCH or any other
    string), the handler answers with status 200, content type
    application/json and the body {"status":"ok"}, and the router sends
    every request whose path is /healthz or /readyz to that handler,
    again whatever the method. *)
Theorem healthz_any_method (env : Env) (r : Request) (s : S) :
  (let run := handleHealthz env r s in
   outcome run = Returned
   ∧ final run = s
   ∧ StatusCode (respond (ops run)) = StatusOK
   ∧ Header (respond (ops run)) !! "Content-Type" = Some "application/json"
   ∧ ResponseBody (respond (ops run)) = [JSONLine statusOk])
  ∧ (Path r = "/healthz" ∨ Path r = "/readyz" →
     ServeMux_ServeHTTP (addRoutes NewServeMux) env r s = handleHealthz env r s).
Proof.
  split.
  - rewrite handleHealthz_run. cbn [outcome final ops].
    repeat split; vm_compute; reflexivity.
  - unfold ServeMux_ServeHTTP. intros [Hpath | Hpath]; rewrite Hpath; reflexivity.
Qed.
End Server.

Lemma NewServer_OPTIONS_short_circuit_witness :
  StatusCode (respond (ops (NewServer_Handler
                              (BS := MemoryBlogStore.memory_BlogStore map_to_list)
                              (DC := sampleCreateDecoder) (DU := sampleUpdateDecoder)
                              sampleEnv (request "OPTIONS" "/api/v1/blogs/1") threeBlogs)))
  = StatusOK.
Proof.
  apply (NewServer_OPTIONS_short_circuit
           (BS := MemoryBlogStore.memory_BlogStore map_to_list)
           (DC := sampleCreateDecoder) (DU := sampleUpdateDecoder)
           sampleEnv (request "OPTIONS" "/api/v1/blogs/1") threeBlogs).
  reflexivity.
Defined.

Lemma healthz_any_method_witness :
  ServeMux_ServeHTTP
    (addRoutes (BS := MemoryBlogStore.memory_BlogStore map_to_list)
               (DC := sampleCreateDecoder) (DU := sampleUpdateDecoder) NewServeMux)
    sampleEnv (request "DELETE" "/readyz") threeBlogs
  = handleHealthz sampleEnv (request "DELETE" "/readyz") threeBlogs.
Proof.
  apply (healthz_any_method
           (BS := MemoryBlogStore.memory_BlogStore map_to_list)
           (DC := sampleCreateDecoder) (DU := sampleUpdateDecoder)
           sampleEnv (request "DELETE" "/readyz") threeBlogs).
  right. reflexivity.
Defined.

(** ** The server on the scenario of the repository's tests *)

Example PATCH_is_405 :
  StatusCode (respond (ops (NewServer_Handler
                              (BS := MemoryBlogStore.memory_BlogStore map_to_list)
                              (DC := sampleCreateDecoder) (DU := sampleUpdateDecoder)
                              sampleEnv (request "PATCH" "/api/v1/blogs") threeBlogs)))
  = StatusMethodNotAllowed
  ∧ StatusCode (respond (ops (NewServer_Handler
                              (BS := MemoryBlogStore.memory_BlogStore map_to_list)
                              (DC := sampleCreateDecoder) (DU := sampleUpdateDecoder)
                              sampleEnv (request "PATCH" "/api/v1/blogs/1") threeBlogs)))
  = StatusMethodNotAllowed.
Proof. split; vm_compute; reflexivity. Qed.

Example delete_then_get_is_404 :
  let server := NewServer_Handler
                  (BS := MemoryBlogStore.memory_BlogStore map_to_list)
                  (DC := sampleCreateDecoder) (DU := sampleUpdateDecoder) in
  let deleted := server sampleEnv (request "DELETE" "/api/v1/blogs/1") threeBlogs in
  StatusCode (respond (ops deleted)) = StatusNoContent
  ∧ ResponseBody (respond (ops deleted)) = []
  ∧ respond (ops (server sampleEnv (request "GET" "/api/v1/blogs/1") (final deleted)))
    = mkResponse StatusNotFound
        {["Access-Control-Allow-Origin" := "*";
          "Access-Control-Allow-Methods" := "GET, POST, PUT, DELETE, OPTIONS";
          "Access-Control-Allow-Headers" := "Content-Type, Authorization";
          "Content-Type" := "application/json"]}
        [JSONLine (JObject [("error", JString "Blog not found")])].
Proof. repeat split; vm_compute; reflexivity. Qed.

(** ** The server keeps every blog under its own id *)

Section ServerInvariant.
Variable range : MemoryBlogStore.t → list (string * Blog.t).
Context {DC : JSONDecoder CreateBlogRequest.t} {DU : JSONDecoder UpdateBlogRequest.t}.

#[local] Existing Instance MemoryBlogStore.memory_BlogStore.

Lemma Blog_Update_ID (now : Time) (b : Blog.t) (u : UpdateBlogRequest.t) :
  Blog.ID (Blog_Update now b u) = Blog.ID b.
Proof.
  unfold Blog_Update.
  destruct (UpdateBlogRequest.Title u), (UpdateBlogRequest.Content u); reflexivity.
Qed.

Lemma foldl_best_elem {A : Type} (f : option A → A → option A) (l : list A)
    (acc : option A) (e : A) :
  (∀ best x, f best x = best ∨ f best x = Some x) →
  foldl f acc l = Some e → acc = Some e ∨ e ∈ l.
Proof.
  intros Hf. revert acc. induction l as [| x l IH]; intros acc; cbn [foldl].
  - intros ->. by left.
  - intros Hfold. destruct (IH _ Hfold) as [Hacc | Hin].
    + destruct (Hf acc x) as [Hkeep | Htake].
      * left. congruence.
      * right. apply elem_of_cons. left. congruence.
    + right. apply elem_of_cons. by right.
Qed.

Lemma findHandler_elem {S : Type} (mux : list (string * Handler S)) (path : string)
    (e : string * Handler S) :
  findHandler mux path = Some e → e ∈ mux.
Proof.
  intros Hfind. apply foldl_best_elem in Hfind as [Hnone | Hin]; [discriminate | exact Hin |].
  intros best x. destruct (patternMatches (fst x) path); [| by left].
  destruct best as [b |]; [| by right].
  destruct (String.length (fst b) <? String.length (fst x))%nat; [by right | by left].
Qed.

(** What holds of the store before a request and is kept by every
    registered handler is kept by the router. *)
Lemma ServeMux_keeps {S : Type} (P : S → Prop) (mux : list (string * Handler S)) :
  (∀ e, e ∈ mux → ∀ env r s, P s → P (final (snd e env r s))) →
  ∀ env r s, P s → P (final (ServeMux_ServeHTTP mux env r s)).
Proof.
  intros Hmux env r s HP. unfold ServeMux_ServeHTTP.
  destruct (findHandler mux (Path r)) as [[p h] |] eqn:Hfind; [| exact HP].
  apply (Hmux (p, h)); [| exact HP]. by apply findHandler_elem in Hfind.
Qed.

(** The middleware chain never touches the store itself. *)
Lemma withMiddleware_final {S : Type} (next : Handler S) (env : Env) (r : Request) (s : S) :
  final (withMiddleware next env r s) = s
  ∨ final (withMiddleware next env r s) = final (next env r s).
Proof.
  unfold withMiddleware, loggingMiddleware, panicRecoveryMiddleware,
    ratelimitMiddleware, corsMiddleware.
  destruct (String.eqb (Method r) "OPTIONS"); cbn; [by left |].
  destruct (outcome (next env r s)); cbn; by right.
Qed.

Lemma handleBlogsCreate_keyed (env : Env) (r : Request) (s : gmap string Blog.t) :
  MemoryBlogStore.keyed_by_id s →
  MemoryBlogStore.keyed_by_id
    (final (handleBlogsCreate (BS := MemoryBlogStore.memory_BlogStore range) env r s)).
Proof.
  intros Hkey. unfold handleBlogsCreate.
  destruct (negb (String.eqb (Method r) "POST")); [exact Hkey |].
  destruct (err (decodeValid r)); [destruct (problems (decodeValid r)); exact Hkey |].
  cbn. by apply MemoryBlogStoreFacts.keyed_insert.
Qed.

Lemma handleBlogsGet_final (env : Env) (r : Request) (s : gmap string Blog.t) :
  final (handleBlogsGet (BS := MemoryBlogStore.memory_BlogStore range) env r s) = s.
Proof.
  unfold handleBlogsGet.
  destruct (negb (String.eqb (Method r) "GET")); [reflexivity |].
  destruct (negb (String.eqb (Values_Get (Query r) "author") "")); reflexivity.
Qed.

(** The update handler passes to [Update] the blog it fetched under [id],
    and [Blog.Update] keeps the [ID]: the blog goes back under its own id. *)
Lemma handleBlogUpdate_keyed (id : string) (env : Env) (r : Request)
    (s : gmap string Blog.t) :
  MemoryBlogStore.keyed_by_id s →
  MemoryBlogStore.keyed_by_id
    (final (handleBlogUpdate (BS := MemoryBlogStore.memory_BlogStore range) id env r s)).
Proof.
  intros Hkey. unfold handleBlogUpdate. cbn [store.GetByID MemoryBlogStore.memory_BlogStore].
  unfold MemoryBlogStore.GetByID. destruct (s !! id) as [b |] eqn:Hid; [| exact Hkey].
  destruct (err (decodeValid r)); [destruct (problems (decodeValid r)); exact Hkey |].
  cbn [store.Update MemoryBlogStore.memory_BlogStore]. unfold MemoryBlogStore.Update.
  rewrite Hid. cbn [final].
  rewrite <- (Hkey _ _ Hid), <- (Blog_Update_ID (now env) b (value (decodeValid r))).
  by apply MemoryBlogStoreFacts.keyed_insert.
Qed.

Lemma handleBlogsByID_keyed (env : Env) (r : Request) (s : gmap string Blog.t) :
  MemoryBlogStore.keyed_by_id s →
  MemoryBlogStore.keyed_by_id
    (final (handleBlogsByID (BS := MemoryBlogStore.memory_BlogStore range) env r s)).
Proof.
  intros Hkey. unfold handleBlogsByID.
  destruct (_ || _); [exact Hkey |].
  destruct (String.eqb (Method r) "GET").
  { unfold handleBlogGet. cbn [store.GetByID MemoryBlogStore.memory_BlogStore].
    unfold MemoryBlogStore.GetByID. destruct (s !! _); exact Hkey. }
  destruct (String.eqb (Method r) "PUT"); [by apply handleBlogUpdate_keyed |].
  destruct (String.eqb (Method r) "DELETE"); [| exact Hkey].
  unfold handleBlogDelete. cbn [store.Delete MemoryBlogStore.memory_BlogStore].
  unfold MemoryBlogStore.Delete. destruct (s !! _); [| exact Hkey].
  by apply MemoryBlogStoreFacts.keyed_delete.
Qed.

(** Every request the server handles leaves each stored blog under its
    own id, so ids stay unique in all states the server can reach. *)
Lemma NewServer_Handler_keyed (env : Env) (r : Request) (s : gmap string Blog.t) :
  MemoryBlogStore.keyed_by_id s →
  MemoryBlogStore.keyed_by_id
    (final (NewServer_Handler (BS := MemoryBlogStore.memory_BlogStore range) env r s)).
Proof.
  intros Hkey. unfold NewServer_Handler.
  destruct (withMiddleware_final
              (ServeMux_ServeHTTP
                 (addRoutes (BS := MemoryBlogStore.memory_BlogStore range) NewServeMux))
              env r s) as [-> | ->]; [exact Hkey |].
  apply (ServeMux_keeps MemoryBlogStore.keyed_by_id); [| exact Hkey].
  intros e He env' r' s' Hkey'.
  unfold addRoutes, Handle, NewServeMux in He. cbn [app] in He.
  rewrite !elem_of_cons, elem_of_nil in He.
  destruct He as [-> | [-> | [-> | [-> | []]]]]; cbn [snd].
  - exact Hkey'.
  - exact Hkey'.
  - destruct (String.eqb (Method r') "GET"); [by rewrite handleBlogsGet_final |].
    destruct (String.eqb (Method r') "POST"); [by apply handleBlogsCreate_keyed |].
    exact Hkey'.
  - by apply handleBlogsByID_keyed.
Qed.
End ServerInvariant.

(** Create, read, update: the title is replaced by its trimmed new value,
    the content stays, and the blog is found under the id it was given. *)
Example create_get_update :
  let server := NewServer_Handler
                  (BS := MemoryBlogStore.memory_BlogStore map_to_list)
                  (DC := sampleCreateDecoder) (DU := sampleUpdateDecoder) in
  let id := "00112233-4455-4677-8899-aabbccddeeff" in
  let created := server sampleEnv (post " T ") MemoryBlogStore.NewMemoryBlogStore in
  let blog := Blog.mk id "T" "Test content" "Test Author" 1005 1005 in
  let later := mkEnv 2000 2005 2009 (entropy sampleEnv) in
  let updated :=
    server later (mkRequest "PUT" ("/api/v1/blogs/" ++ id) [] " T2 " "" "") (final created) in
  StatusCode (respond (ops created)) = StatusCreated
  ∧ ResponseBody (respond (ops created)) = [JSONLine (toJSON blog)]
  ∧ ResponseBody (respond (ops (server sampleEnv (get ("/api/v1/blogs/" ++ id) [])
                                       (final created))))
    = [JSONLine (toJSON blog)]
  ∧ StatusCode (respond (ops updated)) = StatusOK
  ∧ ResponseBody (respond (ops updated))
    = [JSONLine (toJSON (Blog.mk id "T2" "Test content" "Test Author" 1005 2005))].
Proof. repeat split; vm_compute; reflexivity. Qed.

(** * Further properties of the code *)

(** ** Strings and TrimSpace *)

Lemma append_cons (c : ascii) (s t : string) : String c s ++ t = String c (s ++ t).
Proof. reflexivity. Qed.

Lemma append_nil_l (s : string) : "" ++ s = s.
Proof. reflexivity. Qed.

Lemma append_nil_r (s : string) : s ++ "" = s.
Proof.
  induction s as [| c s IH]; [reflexivity |]. by rewrite append_cons, IH.
Qed.

Lemma append_assoc (s1 s2 s3 : string) : (s1 ++ s2) ++ s3 = s1 ++ (s2 ++ s3).
Proof.
  induction s1 as [| c s1 IH]; [reflexivity |]. by rewrite !append_cons, IH.
Qed.

Lemma length_append (s1 s2 : string) :
  String.length (s1 ++ s2) = (String.length s1 + String.length s2)%nat.
Proof.
  induction s1 as [| c s1 IH]; [reflexivity |]. rewrite append_cons. cbn. by rewrite IH.
Qed.

Lemma rev_app_append (s1 s2 : string) : String.rev_app s1 s2 = String.rev s1 ++ s2.
Proof.
  unfold String.rev. revert s2. induction s1 as [| c s1 IH]; intros s2; cbn.
  - reflexivity.
  - rewrite (IH (String c s2)), (IH (String c "")), append_assoc. reflexivity.
Qed.

Lemma rev_cons (c : ascii) (s : string) : String.rev (String c s) = String.rev s ++ String c "".
Proof. unfold String.rev at 1. cbn. apply rev_app_append. Qed.

Lemma rev_append (s1 s2 : string) : String.rev (s1 ++ s2) = String.rev s2 ++ String.rev s1.
Proof.
  induction s1 as [| c s1 IH].
  - by rewrite append_nil_l, append_nil_r.
  - by rewrite append_cons, !rev_cons, IH, append_assoc.
Qed.

Lemma rev_involutive (s : string) : String.rev (String.rev s) = s.
Proof.
  induction s as [| c s IH]; [reflexivity |].
  rewrite rev_cons, rev_append, IH. reflexivity.
Qed.

Lemma length_rev (s : string) : String.length (String.rev s) = String.length s.
Proof.
  induction s as [| c s IH]; [reflexivity |].
  rewrite rev_cons, length_append, IH. cbn. lia.
Qed.

(** What [TrimLeftSpace] returns is what is left of the string after a
    prefix. *)
Lemma TrimLeftSpace_suffix (n : nat) (s : string) :
  (String.length s ≤ n)%nat → ∃ p, s = p ++ TrimLeftSpace s.
Proof.
  revert s. induction n as [| n IH]; intros s Hlen.
  - destruct s; [by exists "" | cbn in Hlen; lia].
  - destruct s as [| c1 t1]; [by exists "" |]. cbn in Hlen. cbn [TrimLeftSpace].
    destruct (asciiSpace c1).
    { destruct (IH t1) as [p Hp]; [lia |]. exists (String c1 p). by rewrite append_cons, <- Hp. }
    destruct t1 as [| c2 t2]; [by exists "" |]. cbn in Hlen.
    destruct (space2 c1 c2).
    { destruct (IH t2) as [p Hp]; [lia |]. exists (String c1 (String c2 p)).
      by rewrite !append_cons, <- Hp. }
    destruct t2 as [| c3 t3]; [by exists "" |]. cbn in Hlen.
    destruct (space3 c1 c2 c3); [| by exists ""].
    destruct (IH t3) as [p Hp]; [lia |]. exists (String c1 (String c2 (String c3 p))).
    by rewrite !append_cons, <- Hp.
Qed.

Lemma trimRevSpace_suffix (n : nat) (s : string) :
  (String.length s ≤ n)%nat → ∃ p, s = p ++ trimRevSpace s.
Proof.
  revert s. induction n as [| n IH]; intros s Hlen.
  - destruct s; [by exists "" | cbn in Hlen; lia].
  - destruct s as [| c1 t1]; [by exists "" |]. cbn in Hlen. cbn [trimRevSpace].
    destruct (asciiSpace c1).
    { destruct (IH t1) as [p Hp]; [lia |]. exists (String c1 p). by rewrite append_cons, <- Hp. }
    destruct t1 as [| c2 t2]; [by exists "" |]. cbn in Hlen.
    destruct (space2 c2 c1).
    { destruct (IH t2) as [p Hp]; [lia |]. exists (String c1 (String c2 p)).
      by rewrite !append_cons, <- Hp. }
    destruct t2 as [| c3 t3]; [by exists "" |]. cbn in Hlen.
    destruct (space3 c3 c2 c1); [| by exists ""].
    destruct (IH t3) as [p Hp]; [lia |]. exists (String c1 (String c2 (String c3 p))).
    by rewrite !append_cons, <- Hp.
Qed.

(** What [TrimRightSpace] returns is a prefix of the string. *)
Lemma TrimRightSpace_prefix (s : string) : ∃ q, s = TrimRightSpace s ++ q.
Proof.
  unfold TrimRightSpace.
  destruct (trimRevSpace_suffix _ (String.rev s) (le_n _)) as [p Hp].
  exists (String.rev p).
  rewrite <- rev_append, <- Hp, rev_involutive. reflexivity.
Qed.

Lemma TrimSpace_len (s : string) : len (TrimSpace s) ≤ len s.
Proof.
  unfold TrimSpace, len.
  destruct (TrimLeftSpace_suffix _ s (le_n _)) as [p Hp].
  destruct (TrimRightSpace_prefix (TrimLeftSpace s)) as [q Hq].
  apply (f_equal String.length) in Hp, Hq. rewrite length_append in Hp, Hq. lia.
Qed.

Lemma startsSpace_false_fixed (s : string) :
  startsSpace s = false → TrimLeftSpace s = s.
Proof.
  destruct s as [| c1 [| c2 [| c3 t3]]]; cbn; try reflexivity.
  - intros ->%orb_false_iff%proj1. reflexivity.
  - intros [-> [-> _]%orb_false_iff]%orb_false_iff. reflexivity.
  - intros [-> [-> ->]%orb_false_iff]%orb_false_iff. reflexivity.
Qed.

Lemma TrimLeftSpace_startsSpace (n : nat) (s : string) :
  (String.length s ≤ n)%nat → startsSpace (TrimLeftSpace s) = false.
Proof.
  revert s. induction n as [| n IH]; intros s Hlen.
  - destruct s; [reflexivity | cbn in Hlen; lia].
  - destruct s as [| c1 t1]; [reflexivity |]. cbn in Hlen. cbn [TrimLeftSpace].
    destruct (asciiSpace c1) eqn:H1; [apply IH; lia |].
    destruct t1 as [| c2 t2]; [cbn; by rewrite H1 |]. cbn in Hlen.
    destruct (space2 c1 c2) eqn:H2; [apply IH; lia |].
    destruct t2 as [| c3 t3]; [cbn; by rewrite H1, H2 |]. cbn in Hlen.
    destruct (space3 c1 c2 c3) eqn:H3; [apply IH; lia |].
    cbn. by rewrite H1, H2, H3.
Qed.

(** A string that begins with a white-space rune still does when text is
    appended; so a prefix of a string that does not, does not either. *)
Lemma startsSpace_append (p q : string) :
  startsSpace p = true → startsSpace (p ++ q) = true.
Proof.
  destruct p as [| c1 [| c2 [| c3 t3]]]; rewrite ?append_cons, ?append_nil_l; cbn;
    try discriminate.
  - rewrite orb_false_r. intros ->. reflexivity.
  - rewrite !orb_false_r. intros [-> | ->]%orb_true_iff; [reflexivity |].
    destruct q; by rewrite ?orb_true_r.
  - trivial.
Qed.

Lemma trimRevSpace_idemp (n : nat) (s : string) :
  (String.length s ≤ n)%nat → trimRevSpace (trimRevSpace s) = trimRevSpace s.
Proof.
  revert s. induction n as [| n IH]; intros s Hlen.
  - destruct s; [reflexivity | cbn in Hlen; lia].
  - destruct s as [| c1 t1]; [reflexivity |]. cbn in Hlen. cbn [trimRevSpace].
    destruct (asciiSpace c1) eqn:H1; [apply IH; lia |].
    destruct t1 as [| c2 t2]; [cbn; by rewrite H1 |]. cbn in Hlen.
    destruct (space2 c2 c1) eqn:H2; [apply IH; lia |].
    destruct t2 as [| c3 t3]; [cbn; by rewrite H1, H2 |]. cbn in Hlen.
    destruct (space3 c3 c2 c1) eqn:H3; [apply IH; lia |].
    cbn. by rewrite H1, H2, H3.
Qed.

(** Trimming a trimmed string changes nothing. *)
Lemma TrimSpace_idemp (s : string) : TrimSpace (TrimSpace s) = TrimSpace s.
Proof.
  unfold TrimSpace.
  assert (Hleft : TrimLeftSpace (TrimRightSpace (TrimLeftSpace s))
                  = TrimRightSpace (TrimLeftSpace s)).
  { apply startsSpace_false_fixed.
    destruct (startsSpace (TrimRightSpace (TrimLeftSpace s))) eqn:Hstart; [| reflexivity].
    destruct (TrimRightSpace_prefix (TrimLeftSpace s)) as [q Hq].
    apply (startsSpace_append _ q) in Hstart. rewrite <- Hq in Hstart.
    rewrite (TrimLeftSpace_startsSpace _ s (le_n _)) in Hstart. discriminate. }
  rewrite Hleft. unfold TrimRightSpace at 1 2.
  rewrite rev_involutive, (trimRevSpace_idemp _ _ (le_n _)). reflexivity.
Qed.

(** ** Validation messages and the form of stored blogs *)


Lemma Valid_lookups (r : CreateBlogRequest.t) (u : UpdateBlogRequest.t) :
  CreateBlogRequest.Valid r !! "title"
    = createProblem "title" 100 "100" (CreateBlogRequest.Title r)
  ∧ CreateBlogRequest.Valid r !! "content"
    = createProblem "content" 5000 "5000" (CreateBlogRequest.Content r)
  ∧ CreateBlogRequest.Valid r !! "author"
    = createProblem "author" 50 "50" (CreateBlogRequest.Author r)
  ∧ UpdateBlogRequest.Valid u !! "title"
    = updateProblem "title" 100 "100" (UpdateBlogRequest.Title u)
  ∧ UpdateBlogRequest.Valid u !! "content"
    = updateProblem "content" 5000 "5000" (UpdateBlogRequest.Content u).
Proof.
  unfold CreateBlogRequest.Valid, UpdateBlogRequest.Valid, createProblem, updateProblem.
  repeat split.
  - destruct (String.eqb (TrimSpace (CreateBlogRequest.Title r)) ""),
      (100 <? len (CreateBlogRequest.Title r)),
      (String.eqb (TrimSpace (CreateBlogRequest.Content r)) ""),
      (5000 <? len (CreateBlogRequest.Content r)),
      (String.eqb (TrimSpace (CreateBlogRequest.Author r)) ""),
      (50 <? len (CreateBlogRequest.Author r)); by simplify_map_eq.
  - destruct (String.eqb (TrimSpace (CreateBlogRequest.Title r)) ""),
      (100 <? len (CreateBlogRequest.Title r)),
      (String.eqb (TrimSpace (CreateBlogRequest.Content r)) ""),
      (5000 <? len (CreateBlogRequest.Content r)),
      (String.eqb (TrimSpace (CreateBlogRequest.Author r)) ""),
      (50 <? len (CreateBlogRequest.Author r)); by simplify_map_eq.
  - destruct (String.eqb (TrimSpace (CreateBlogRequest.Title r)) ""),
      (100 <? len (CreateBlogRequest.Title r)),
      (String.eqb (TrimSpace (CreateBlogRequest.Content r)) ""),
      (5000 <? len (CreateBlogRequest.Content r)),
      (String.eqb (TrimSpace (CreateBlogRequest.Author r)) ""),
      (50 <? len (CreateBlogRequest.Author r)); by simplify_map_eq.
  - destruct (UpdateBlogRequest.Title u) as [t |], (UpdateBlogRequest.Content u) as [c |];
      repeat match goal with |- context [if ?b then _ else _] => destruct b end;
      by simplify_map_eq.
  - destruct (UpdateBlogRequest.Title u) as [t |], (UpdateBlogRequest.Content u) as [c |];
      repeat match goal with |- context [if ?b then _ else _] => destruct b end;
      by simplify_map_eq.
Qed.

(** X1: which message a field gets.  For a create request the length
    message overwrites "is required"; for an update request "cannot be
    empty" overwrites the length message; a field that passes both tests,
    and an absent field of an update, gets no entry. *)
Theorem Valid_messages (r : CreateBlogRequest.t) (u : UpdateBlogRequest.t) :
  CreateBlogRequest.Valid r !! "title"
    = createProblem "title" 100 "100" (CreateBlogRequest.Title r)
  ∧ CreateBlogRequest.Valid r !! "content"
    = createProblem "content" 5000 "5000" (CreateBlogRequest.Content r)
  ∧ CreateBlogRequest.Valid r !! "author"
    = createProblem "author" 50 "50" (CreateBlogRequest.Author r)
  ∧ UpdateBlogRequest.Valid u !! "title"
    = updateProblem "title" 100 "100" (UpdateBlogRequest.Title u)
  ∧ UpdateBlogRequest.Valid u !! "content"
    = updateProblem "content" 5000 "5000" (UpdateBlogRequest.Content u).
Proof. exact (Valid_lookups r u). Qed.

Lemma createProblem_None (field : string) (limit : Z) (limitText s : string) :
  createProblem field limit limitText s = None → TrimSpace s ≠ "" ∧ len s ≤ limit.
Proof.
  unfold createProblem. destruct (limit <? len s) eqn:Hlen; [discriminate |].
  destruct (String.eqb_spec (TrimSpace s) ""); [discriminate |].
  intros _. apply Z.ltb_ge in Hlen. done.
Qed.

Lemma updateProblem_None (field : string) (limit : Z) (limitText s : string) :
  updateProblem field limit limitText (Some s) = None → TrimSpace s ≠ "" ∧ len s ≤ limit.
Proof.
  unfold updateProblem. destruct (String.eqb_spec (TrimSpace s) ""); [discriminate |].
  destruct (limit <? len s) eqn:Hlen; [discriminate |].
  intros _. apply Z.ltb_ge in Hlen. done.
Qed.

Lemma TrimSpace_trimmed_within (limit : Z) (s : string) :
  TrimSpace s ≠ "" → len s ≤ limit → trimmed_within limit (TrimSpace s).
Proof.
  intros Hne Hlen. split; [exact Hne |]. split; [apply TrimSpace_idemp |].
  pose proof (TrimSpace_len s). lia.
Qed.

Lemma NewBlog_valid_wellformed (now : Time) (id : uuid.UUID) (req : CreateBlogRequest.t) :
  CreateBlogRequest.Valid req = ∅ → Blog_wellformed (NewBlog now id req).
Proof.
  intros Hvalid.
  destruct (Valid_lookups req (UpdateBlogRequest.mk None None)) as (Ht & Hc & Ha & _).
  rewrite Hvalid, lookup_empty in Ht, Hc, Ha.
  symmetry in Ht, Hc, Ha.
  apply createProblem_None in Ht as [? ?], Hc as [? ?], Ha as [? ?].
  split; [| split]; cbn; by apply TrimSpace_trimmed_within.
Qed.

Lemma Blog_Update_valid_wellformed (now : Time) (b : Blog.t) (u : UpdateBlogRequest.t) :
  UpdateBlogRequest.Valid u = ∅ → Blog_wellformed b → Blog_wellformed (Blog_Update now b u).
Proof.
  intros Hvalid (Ht & Hc & Ha).
  destruct (Valid_lookups (CreateBlogRequest.mk "" "" "") u) as (_ & _ & _ & Hut & Huc).
  rewrite Hvalid, lookup_empty in Hut, Huc. symmetry in Hut, Huc.
  unfold Blog_Update, Blog_wellformed.
  destruct (UpdateBlogRequest.Title u) as [t |], (UpdateBlogRequest.Content u) as [c |]; cbn.
  all: try (apply updateProblem_None in Hut as [? ?]).
  all: try (apply updateProblem_None in Huc as [? ?]).
  all: split; [| split]; try assumption; by apply TrimSpace_trimmed_within.
Qed.

(** X2: a blog made by NewBlog from a request that passes Valid has a
    title, a content and an author that are not empty, carry no leading
    or trailing white space, and are within 100, 5000 and 50 bytes. *)
Theorem NewBlog_wellformed (now : Time) (id : uuid.UUID) (req : CreateBlogRequest.t) :
  CreateBlogRequest.Valid req = ∅ → Blog_wellformed (NewBlog now id req).
Proof. apply NewBlog_valid_wellformed. Qed.

Lemma NewBlog_wellformed_witness :
  Blog_wellformed
    (NewBlog 1005 (uuid.New (entropy sampleEnv))
       (CreateBlogRequest.mk "  Test Title  " "Test content" "Test Author")).
Proof.
  apply (NewBlog_wellformed 1005 (uuid.New (entropy sampleEnv))
           (CreateBlogRequest.mk "  Test Title  " "Test content" "Test Author")).
  vm_compute. reflexivity.
Defined.

(** X3: Blog.Update with a request that passes Valid keeps a blog in
    that form. *)
Theorem Blog_Update_wellformed (now : Time) (b : Blog.t) (u : UpdateBlogRequest.t) :
  UpdateBlogRequest.Valid u = ∅ → Blog_wellformed b → Blog_wellformed (Blog_Update now b u).
Proof. apply Blog_Update_valid_wellformed. Qed.

(** ** MemoryBlogStore: round trips *)

Lemma foldl_append_all (l : list (string * Blog.t)) (acc : list Blog.t) :
  foldl (λ (blogs : slice Blog.t) kv, append blogs (snd kv)) (Some acc) l
  = Some (acc ++ (snd <$> l))%list.
Proof.
  revert acc. induction l as [| kv l IH]; intros acc; cbn [foldl fmap list_fmap].
  - by rewrite app_nil_r.
  - unfold append at 2. cbn [elems default from_option id]. rewrite IH, <- app_assoc.
    reflexivity.
Qed.

(** X4: Create never fails and is an upsert: afterwards GetByID of the
    blog's id returns that blog, every other id reads as before, and the
    number of stored blogs grows by one exactly when the id was not stored
    yet. *)
Theorem Create_then_GetByID (s : gmap string Blog.t) (blog : Blog.t) :
  let s' := fst (MemoryBlogStore.Create s blog) in
  snd (MemoryBlogStore.Create s blog) = None
  ∧ MemoryBlogStore.GetByID s' (Blog.ID blog) = Ok blog
  ∧ (∀ id, id ≠ Blog.ID blog → MemoryBlogStore.GetByID s' id = MemoryBlogStore.GetByID s id)
  ∧ size s' = match s !! Blog.ID blog with
              | Some _ => size s
              | None => S (size s)
              end.
Proof.
  cbn. unfold MemoryBlogStore.GetByID. split; [reflexivity |].
  split; [by rewrite lookup_insert_eq |].
  split; [intros id Hid; by rewrite lookup_insert_ne |].
  destruct (s !! Blog.ID blog) eqn:Hid.
  - apply map_size_insert_Some. eauto.
  - by apply map_size_insert_None.
Qed.

(** X5: Update of a stored id returns no error and replaces the value
    under that id by the blog given, whatever its ID field says; every
    other id reads as before and the number of stored blogs is the same. *)
Theorem Update_present_replaces
    (s : gmap string Blog.t) (id : string) (blog old : Blog.t) :
  s !! id = Some old →
  ∃ s', MemoryBlogStore.Update s id blog = (s', None)
        ∧ MemoryBlogStore.GetByID s' id = Ok blog
        ∧ (∀ id', id' ≠ id → MemoryBlogStore.GetByID s' id' = MemoryBlogStore.GetByID s id')
        ∧ size s' = size s.
Proof.
  intros Hid. exists (<[id := blog]> s). unfold MemoryBlogStore.Update, MemoryBlogStore.GetByID.
  rewrite Hid. split; [reflexivity |].
  split; [by rewrite lookup_insert_eq |].
  split; [intros id' Hne; by rewrite lookup_insert_ne |].
  apply map_size_insert_Some. eauto.
Qed.

Lemma Update_present_replaces_witness :
  ∃ s', MemoryBlogStore.Update threeBlogs "2" blogOne = (s', None)
        ∧ MemoryBlogStore.GetByID s' "2" = Ok blogOne
        ∧ size s' = 3%nat.
Proof.
  destruct (Update_present_replaces threeBlogs "2" blogOne blogTwo)
    as (s' & Hupd & Hget & _ & Hsize).
  - vm_compute. reflexivity.
  - exists s'. split; [exact Hupd |]. split; [exact Hget |]. rewrite Hsize.
    vm_compute. reflexivity.
Defined.

(** X6: GetAll never fails and never returns the nil slice: it returns
    every stored blog once, in the order the map is ranged over, so as
    many blogs as the store holds (an empty, non-nil slice for the empty
    store). *)
Theorem GetAll_every_blog_once
    (range : gmap string Blog.t → list (string * Blog.t)) (s : gmap string Blog.t) :
  MemoryBlogStore.range_ok range →
  ∃ l : list Blog.t,
    MemoryBlogStore.GetAll range s = Ok (Some l)
    ∧ l ≡ₚ snd <$> map_to_list s
    ∧ length l = size s
    ∧ (∀ b, b ∈ l ↔ ∃ id, s !! id = Some b).
Proof.
  intros Hrange. exists (snd <$> range s). unfold MemoryBlogStore.GetAll.
  rewrite foldl_append_all. cbn [app]. split; [reflexivity |].
  split; [by rewrite (Hrange s) |].
  split; [by rewrite length_fmap, (Hrange s), length_map_to_list |].
  intros b. rewrite (Hrange s), list_elem_of_fmap. split.
  - intros ([id b'] & -> & Hin). exists id. by apply elem_of_map_to_list.
  - intros [id Hid]. exists (id, b). split; [reflexivity |]. by apply elem_of_map_to_list.
Qed.

Lemma GetAll_every_blog_once_witness :
  ∃ l : list Blog.t,
    MemoryBlogStore.GetAll map_to_list threeBlogs = Ok (Some l) ∧ length l = 3%nat.
Proof.
  destruct (GetAll_every_blog_once map_to_list threeBlogs) as (l & Hget & _ & Hlen & _).
  - exact map_to_list_range_ok.
  - exists l. split; [exact Hget |]. rewrite Hlen. vm_compute. reflexivity.
Defined.

Lemma foldl_append_None (author : string) (l : list (string * Blog.t)) :
  foldl (λ (blogs : slice Blog.t) kv,
           if String.eqb (Blog.Author (snd kv)) author
           then append blogs (snd kv) else blogs) None l = None
  ↔ ∀ kv, kv ∈ l → Blog.Author (snd kv) ≠ author.
Proof.
  split.
  - intros Hnil kv Hin Heq.
    pose proof (foldl_append_filter author l None) as Helems.
    rewrite Hnil in Helems. cbn in Helems. symmetry in Helems.
    apply (filter_nil_not_elem_of _ _ (snd kv)) in Helems; [| exact Heq].
    apply Helems, list_elem_of_fmap. by exists kv.
  - induction l as [| kv l IH]; intros Hl; cbn [foldl]; [reflexivity |].
    destruct (String.eqb_spec (Blog.Author (snd kv)) author) as [Heq | _].
    + exfalso. apply (Hl kv); [left | exact Heq].
    + apply IH. intros kv' Hin. apply Hl. by right.
Qed.

(** X7: GetByAuthor never fails; what it returns is what GetAll returns,
    kept where the author is equal, byte for byte, to the one asked for
    (for one range order it is the same sequence, filtered); and it
    returns the nil slice exactly when no stored blog has that author. *)
Theorem GetByAuthor_filters_GetAll
    (range : gmap string Blog.t → list (string * Blog.t)) (s : gmap string Blog.t)
    (author : string) :
  MemoryBlogStore.range_ok range →
  ∃ (all : list Blog.t) (some : slice Blog.t),
    MemoryBlogStore.GetAll range s = Ok (Some all)
    ∧ MemoryBlogStore.GetByAuthor range s author = Ok some
    ∧ elems some = filter (λ b, Blog.Author b = author) all
    ∧ (some = None ↔ ∀ id b, s !! id = Some b → Blog.Author b ≠ author).
Proof.
  intros Hrange. exists (snd <$> range s). eexists.
  unfold MemoryBlogStore.GetAll, MemoryBlogStore.GetByAuthor.
  rewrite foldl_append_all. cbn [app]. split; [reflexivity |]. split; [reflexivity |].
  split; [by rewrite foldl_append_filter |].
  rewrite foldl_append_None. split.
  - intros Hnone id b Hid. apply (Hnone (id, b)).
    rewrite (Hrange s). by apply elem_of_map_to_list.
  - intros Hnone [id b] Hin. rewrite (Hrange s) in Hin.
    apply elem_of_map_to_list in Hin. by apply (Hnone id).
Qed.

Lemma GetByAuthor_filters_GetAll_witness :
  ∃ some : slice Blog.t,
    MemoryBlogStore.GetByAuthor map_to_list threeBlogs "Author B" = Ok some
    ∧ elems some = [blogTwo].
Proof.
  destruct (GetByAuthor_filters_GetAll map_to_list threeBlogs "Author B")
    as (all & some & Hall & Hsome & Helems & _).
  - exact map_to_list_range_ok.
  - exists some. split; [exact Hsome |]. rewrite Helems.
    injection Hall as <-. vm_compute. reflexivity.
Defined.

(** X8: Delete undoes Create: creating a blog whose id is not stored and
    then deleting that id gives back the store as it was, with no error
    from either call. *)
Theorem Create_then_Delete_restores (s : gmap string Blog.t) (blog : Blog.t) :
  s !! Blog.ID blog = None →
  MemoryBlogStore.Delete (fst (MemoryBlogStore.Create s blog)) (Blog.ID blog) = (s, None).
Proof.
  intros Hfresh. cbn. unfold MemoryBlogStore.Delete.
  rewrite lookup_insert_eq, delete_insert_eq. by rewrite delete_id.
Qed.

Lemma Create_then_Delete_restores_witness :
  MemoryBlogStore.Delete (fst (MemoryBlogStore.Create oneBlog blogTwo)) "2"
  = (oneBlog, None).
Proof.
  apply (Create_then_Delete_restores oneBlog blogTwo). vm_compute. reflexivity.
Defined.

(** ** Paths and ids *)

Lemma prefix_append (p rest : string) : String.prefix p (p ++ rest) = true.
Proof.
  induction p as [| c p IH]; [by destruct rest |].
  rewrite append_cons. cbn. by destruct (ascii_dec c c).
Qed.

Lemma substring_all (s : string) : String.substring 0 (String.length s) s = s.
Proof. induction s as [| c s IH]; [reflexivity |]. cbn. by rewrite IH. Qed.

Lemma substring_skip (p rest : string) (m : nat) :
  String.substring (String.length p) m (p ++ rest) = String.substring 0 m rest.
Proof. induction p as [| c p IH]; [reflexivity |]. rewrite append_cons. cbn. exact IH. Qed.

Lemma TrimPrefix_append (p rest : string) : TrimPrefix (p ++ rest) p = rest.
Proof.
  unfold TrimPrefix. rewrite prefix_append, substring_skip, length_append.
  replace (String.length p + String.length rest - String.length p)%nat
    with (String.length rest) by lia.
  apply substring_all.
Qed.

Lemma ContainsSlash_append (s t : string) :
  ContainsSlash (s ++ t) = ContainsSlash s || ContainsSlash t.
Proof.
  induction s as [| c s IH]; [reflexivity |].
  rewrite append_cons. cbn. by rewrite IH, orb_assoc.
Qed.

Lemma hexDigit_not_slash (n : N) : (n < 16)%N → Ascii.eqb (uuid.hexDigit n) "/" = false.
Proof.
  intros Hn. destruct n as [| p]; [reflexivity |].
  do 4 (destruct p as [p | p |]; try reflexivity; try lia).
Qed.

Lemma encodeHex_no_slash (bs : list N) :
  Forall (λ b, (b < 256)%N) bs → ContainsSlash (uuid.encodeHex bs) = false.
Proof.
  induction 1 as [| b bs Hb _ IH]; [reflexivity |]. cbn.
  rewrite IH, !hexDigit_not_slash; [reflexivity | |].
  - apply N.mod_lt. lia.
  - apply N.Div0.div_lt_upper_bound. lia.
Qed.

Lemma lor_byte (a b : N) : (a < 256)%N → (b < 256)%N → (N.lor a b < 256)%N.
Proof.
  intros Ha Hb. destruct (N.eq_dec (N.lor a b) 0%N) as [-> | Hne]; [lia |].
  change 256%N with (2 ^ 8)%N. apply N.log2_lt_pow2; [lia |].
  rewrite N.log2_lor. apply N.max_lub_lt.
  - destruct (N.eq_dec a 0%N) as [-> | Ha0]; [cbn; lia |]. apply N.log2_lt_pow2; lia.
  - destruct (N.eq_dec b 0%N) as [-> | Hb0]; [cbn; lia |]. apply N.log2_lt_pow2; lia.
Qed.

Lemma uuid_New_bytes (entropy : nat → N) :
  Forall (λ b, (b < 256)%N) (uuid.New entropy).
Proof.
  unfold uuid.New. cbn [seq fmap list_fmap alter list_alter].
  repeat constructor; try (apply N.mod_lt; lia).
  - apply lor_byte; [| lia]. pose proof (N.land_le_r (entropy 6%nat mod 256) 15). lia.
  - apply lor_byte; [| lia]. pose proof (N.land_le_r (entropy 8%nat mod 256) 63). lia.
Qed.

Lemma Forall_take_drop {A : Type} (P : A → Prop) (n m : nat) (l : list A) :
  Forall P l → Forall P (take n (drop m l)).
Proof. intros Hl. by apply Forall_take, Forall_drop. Qed.

(** The text of a fresh UUID is a flat path segment. *)
Lemma uuid_String_flat (entropy : nat → N) :
  ContainsSlash (uuid.String (uuid.New entropy)) = false.
Proof.
  pose proof (uuid_New_bytes entropy) as Hbytes.
  unfold uuid.String.
  rewrite !ContainsSlash_append, !encodeHex_no_slash;
    [reflexivity | by apply Forall_take_drop ..| by apply Forall_take].
Qed.

(** ** Handlers: what they answer and what they store *)

Section HandlersAnyStore.
Context {S : Type} {BS : store.BlogStore S}.
Context {DC : JSONDecoder CreateBlogRequest.t} {DU : JSONDecoder UpdateBlogRequest.t}.

(** X9: the create handler stores nothing unless the request is a POST
    whose body decodes and passes Valid.  Another method gets 405 and a
    text body; a body that does not decode gets 400 "Invalid request
    body" without problems; a decoded request with problems gets 400
    "Validation failed" with exactly the problems Valid reports.  In all
    three cases the store is the one the handler was given. *)
Theorem handleBlogsCreate_rejections (env : Env) (r : Request) (s : S) :
  let run := handleBlogsCreate env r s in
  (Method r ≠ "POST" →
     final run = s
     ∧ StatusCode (respond (ops run)) = StatusMethodNotAllowed
     ∧ ResponseBody (respond (ops run)) = [Text ("Method not allowed" ++ LF)])
  ∧ (∀ (v : CreateBlogRequest.t) e,
     Method r = "POST" → Decode (Body r) zeroValue = (v, Some e) →
     final run = s
     ∧ StatusCode (respond (ops run)) = StatusBadRequest
     ∧ ResponseBody (respond (ops run))
       = [JSONLine (JObject [("error", JString "Invalid request body")])])
  ∧ (∀ req : CreateBlogRequest.t,
     Method r = "POST" → Decode (Body r) zeroValue = (req, None) →
     CreateBlogRequest.Valid req ≠ ∅ →
     final run = s
     ∧ StatusCode (respond (ops run)) = StatusBadRequest
     ∧ ResponseBody (respond (ops run))
       = [JSONLine (JObject [("error", JString "Validation failed");
                             ("problems", toJSON (CreateBlogRequest.Valid req))])]).
Proof.
  cbn zeta. unfold handleBlogsCreate. split; [| split].
  - intros Hmethod. apply String.eqb_neq in Hmethod. rewrite Hmethod. done.
  - intros v e -> Hdec. cbn [String.eqb Ascii.eqb Bool.eqb negb].
    rewrite (decodeValid_decode_error r v e Hdec). done.
  - intros req -> Hdec Hne. cbn [String.eqb Ascii.eqb Bool.eqb negb].
    rewrite (decodeValid_invalid r req Hdec Hne). cbn [err problems].
    apply map_size_non_empty_iff in Hne.
    split; [reflexivity |]. split; [reflexivity |].
    cbn. unfold toJSON at 1, ErrorResponse_ToJSON. cbn [Error Problems].
    change (@Valid _ CreateBlogRequest_Validator req) with (CreateBlogRequest.Valid req) in *.
    destruct (size (CreateBlogRequest.Valid req)); [done | reflexivity].
Qed.

(** X10: the by-id handler takes as id what follows "/api/v1/blogs/" in the
    path; when that is empty or contains a further slash it answers 400
    "Invalid blog ID", whatever the method, and does not touch the
    store. *)
Theorem handleBlogsByID_invalid_id (env : Env) (r : Request) (s : S) (rest : string) :
  Path r = blogsPrefix ++ rest →
  rest = "" ∨ ContainsSlash rest = true →
  let run := handleBlogsByID env r s in
  final run = s
  ∧ outcome run = Returned
  ∧ StatusCode (respond (ops run)) = StatusBadRequest
  ∧ ResponseBody (respond (ops run))
    = [JSONLine (JObject [("error", JString "Invalid blog ID")])].
Proof.
  intros Hpath Hrest. cbn zeta. unfold handleBlogsByID.
  rewrite Hpath. change "/api/v1/blogs/" with blogsPrefix. rewrite TrimPrefix_append.
  destruct Hrest as [-> | ->]; [done |]. rewrite orb_true_r. done.
Qed.
End HandlersAnyStore.

Section HandlersMemoryStore.
Variable range : MemoryBlogStore.t → list (string * Blog.t).
Context {DC : JSONDecoder CreateBlogRequest.t} {DU : JSONDecoder UpdateBlogRequest.t}.

#[local] Abbreviation memory := (MemoryBlogStore.memory_BlogStore range).

Lemma handleBlogsByID_flat (env : Env) (r : Request) (s : gmap string Blog.t) (id : string) :
  Path r = blogsPrefix ++ id → id ≠ "" → ContainsSlash id = false →
  handleBlogsByID (BS := memory) env r s
  = if String.eqb (Method r) "GET" then handleBlogGet (BS := memory) id env r s
    else if String.eqb (Method r) "PUT" then handleBlogUpdate (BS := memory) id env r s
    else if String.eqb (Method r) "DELETE" then handleBlogDelete (BS := memory) id env r s
    else mkRun (http_Error "Method not allowed" StatusMethodNotAllowed) Returned s.
Proof.
  intros Hpath Hne Hflat. unfold handleBlogsByID.
  rewrite Hpath. change "/api/v1/blogs/" with blogsPrefix. rewrite TrimPrefix_append, Hflat.
  apply String.eqb_neq in Hne. rewrite Hne. reflexivity.
Qed.

(** X11: GET /api/v1/blogs/{id} with a flat, non-empty id answers 200 with
    the blog stored under that id, and 404 "Blog not found" when there is
    none; the store is not changed. *)
Theorem handleBlogsByID_GET
    (env : Env) (r : Request) (s : gmap string Blog.t) (id : string) :
  Path r = blogsPrefix ++ id → id ≠ "" → ContainsSlash id = false →
  Method r = "GET" →
  let run := handleBlogsByID (BS := memory) env r s in
  final run = s
  ∧ match s !! id with
    | Some blog =>
        StatusCode (respond (ops run)) = StatusOK
        ∧ ResponseBody (respond (ops run)) = [JSONLine (toJSON blog)]
    | None =>
        StatusCode (respond (ops run)) = StatusNotFound
        ∧ ResponseBody (respond (ops run))
          = [JSONLine (JObject [("error", JString "Blog not found")])]
    end.
Proof.
  intros Hpath Hne Hflat Hmethod. cbn zeta.
  rewrite (handleBlogsByID_flat env r s id Hpath Hne Hflat), Hmethod.
  cbn [String.eqb Ascii.eqb Bool.eqb]. unfold handleBlogGet.
  cbn [store.GetByID MemoryBlogStore.memory_BlogStore]. unfold MemoryBlogStore.GetByID.
  destruct (s !! id); done.
Qed.

(** X12: PUT /api/v1/blogs/{id} on a stored id, with a body that decodes to
    an update request passing Valid, answers 200 with the stored blog
    after Blog.Update (present fields trimmed and replaced, id, author
    and createdAt kept, updatedAt the clock reading), and stores that
    blog under the same id; no other entry changes. *)
Theorem handleBlogsByID_PUT_updates
    (env : Env) (r : Request) (s : gmap string Blog.t) (id : string)
    (blog : Blog.t) (req : UpdateBlogRequest.t) :
  Path r = blogsPrefix ++ id → id ≠ "" → ContainsSlash id = false →
  Method r = "PUT" →
  s !! id = Some blog →
  Decode (Body r) zeroValue = (req, None) →
  UpdateBlogRequest.Valid req = ∅ →
  let run := handleBlogsByID (BS := memory) env r s in
  let updated := Blog_Update (now env) blog req in
  StatusCode (respond (ops run)) = StatusOK
  ∧ ResponseBody (respond (ops run)) = [JSONLine (toJSON updated)]
  ∧ final run = <[id := updated]> s
  ∧ Blog.ID updated = Blog.ID blog
  ∧ Blog.Author updated = Blog.Author blog
  ∧ Blog.CreatedAt updated = Blog.CreatedAt blog.
Proof.
  intros Hpath Hne Hflat Hmethod Hid Hdec Hvalid. cbn zeta.
  rewrite (handleBlogsByID_flat env r s id Hpath Hne Hflat), Hmethod.
  cbn [String.eqb Ascii.eqb Bool.eqb]. unfold handleBlogUpdate.
  cbn [store.GetByID store.Update MemoryBlogStore.memory_BlogStore].
  unfold MemoryBlogStore.GetByID, MemoryBlogStore.Update. rewrite Hid.
  rewrite (decodeValid_valid r req Hdec Hvalid). cbn [err value].
  do 3 (split; [reflexivity |]).
  unfold Blog_Update.
  destruct (UpdateBlogRequest.Title req), (UpdateBlogRequest.Content req); done.
Qed.

(** X13: the update handler looks the id up before it reads the body: on
    an id that is not stored it answers 404 whatever the body is; on a
    stored id a body that does not decode gets 400 "Invalid request body"
    and a request with problems gets 400 "Validation failed" with the
    problems Valid reports.  In all three cases the store is unchanged. *)
Theorem handleBlogsByID_PUT_rejections
    (env : Env) (r : Request) (s : gmap string Blog.t) (id : string) :
  Path r = blogsPrefix ++ id → id ≠ "" → ContainsSlash id = false →
  Method r = "PUT" →
  let run := handleBlogsByID (BS := memory) env r s in
  (s !! id = None →
     final run = s
     ∧ StatusCode (respond (ops run)) = StatusNotFound
     ∧ ResponseBody (respond (ops run))
       = [JSONLine (JObject [("error", JString "Blog not found")])])
  ∧ (∀ (v : UpdateBlogRequest.t) e,
     is_Some (s !! id) → Decode (Body r) zeroValue = (v, Some e) →
     final run = s
     ∧ StatusCode (respond (ops run)) = StatusBadRequest
     ∧ ResponseBody (respond (ops run))
       = [JSONLine (JObject [("error", JString "Invalid request body")])])
  ∧ (∀ req : UpdateBlogRequest.t,
     is_Some (s !! id) → Decode (Body r) zeroValue = (req, None) →
     UpdateBlogRequest.Valid req ≠ ∅ →
     final run = s
     ∧ StatusCode (respond (ops run)) = StatusBadRequest
     ∧ ResponseBody (respond (ops run))
       = [JSONLine (JObject [("error", JString "Validation failed");
                             ("problems", toJSON (UpdateBlogRequest.Valid req))])]).
Proof.
  intros Hpath Hne Hflat Hmethod. cbn zeta.
  rewrite (handleBlogsByID_flat env r s id Hpath Hne Hflat), Hmethod.
  cbn [String.eqb Ascii.eqb Bool.eqb]. unfold handleBlogUpdate.
  cbn [store.GetByID MemoryBlogStore.memory_BlogStore]. unfold MemoryBlogStore.GetByID.
  split; [| split].
  - intros ->. done.
  - intros v e [blog ->] Hdec. rewrite (decodeValid_decode_error r v e Hdec). done.
  - intros req [blog ->] Hdec Hinvalid.
    rewrite (decodeValid_invalid r req Hdec Hinvalid). cbn [err problems].
    apply map_size_non_empty_iff in Hinvalid.
    split; [reflexivity |]. split; [reflexivity |].
    cbn. unfold toJSON at 1, ErrorResponse_ToJSON. cbn [Error Problems].
    change (@Valid _ UpdateBlogRequest_Validator req) with (UpdateBlogRequest.Valid req) in *.
    destruct (size (UpdateBlogRequest.Valid req)); [done | reflexivity].
Qed.

(** X14: DELETE /api/v1/blogs/{id} on a stored id answers 204 with no body
    and removes that entry and no other; on an id that is not stored it
    answers 404 "Blog not found" and leaves the store as it was. *)
Theorem handleBlogsByID_DELETE
    (env : Env) (r : Request) (s : gmap string Blog.t) (id : string) :
  Path r = blogsPrefix ++ id → id ≠ "" → ContainsSlash id = false →
  Method r = "DELETE" →
  let run := handleBlogsByID (BS := memory) env r s in
  match s !! id with
  | Some _ =>
      StatusCode (respond (ops run)) = StatusNoContent
      ∧ ResponseBody (respond (ops run)) = []
      ∧ final run = delete id s
  | None =>
      StatusCode (respond (ops run)) = StatusNotFound
      ∧ ResponseBody (respond (ops run))
        = [JSONLine (JObject [("error", JString "Blog not found")])]
      ∧ final run = s
  end.
Proof.
  intros Hpath Hne Hflat Hmethod. cbn zeta.
  rewrite (handleBlogsByID_flat env r s id Hpath Hne Hflat), Hmethod.
  cbn [String.eqb Ascii.eqb Bool.eqb]. unfold handleBlogDelete.
  cbn [store.Delete MemoryBlogStore.memory_BlogStore]. unfold MemoryBlogStore.Delete.
  destruct (s !! id); done.
Qed.

(** X15: on a flat, non-empty id, every method other than GET, PUT and
    DELETE is answered 405 with the text "Method not allowed", and the
    store is not touched. *)
Theorem handleBlogsByID_other_method
    (env : Env) (r : Request) (s : gmap string Blog.t) (id : string) :
  Path r = blogsPrefix ++ id → id ≠ "" → ContainsSlash id = false →
  Method r ≠ "GET" → Method r ≠ "PUT" → Method r ≠ "DELETE" →
  let run := handleBlogsByID (BS := memory) env r s in
  final run = s
  ∧ StatusCode (respond (ops run)) = StatusMethodNotAllowed
  ∧ ResponseBody (respond (ops run)) = [Text ("Method not allowed" ++ LF)].
Proof.
  intros Hpath Hne Hflat Hget Hput Hdelete. cbn zeta.
  rewrite (handleBlogsByID_flat env r s id Hpath Hne Hflat).
  apply String.eqb_neq in Hget, Hput, Hdelete. rewrite Hget, Hput, Hdelete. done.
Qed.

(** X16: a blog that was created is read back: after a successful POST, a
    GET of /api/v1/blogs/ followed by the id of the response answers 200
    with the very blog of the 201 response. *)
Theorem create_then_get (env env' : Env) (r r' : Request) (s : gmap string Blog.t)
    (req : CreateBlogRequest.t) :
  Method r = "POST" →
  Decode (Body r) zeroValue = (req, None) →
  CreateBlogRequest.Valid req = ∅ →
  let created := handleBlogsCreate (BS := memory) env r s in
  let blog := NewBlog (now env) (uuid.New (entropy env)) req in
  Method r' = "GET" →
  Path r' = blogsPrefix ++ Blog.ID blog →
  let fetched := handleBlogsByID (BS := memory) env' r' (final created) in
  ResponseBody (respond (ops created)) = [JSONLine (toJSON blog)]
  ∧ StatusCode (respond (ops fetched)) = StatusOK
  ∧ ResponseBody (respond (ops fetched)) = [JSONLine (toJSON blog)]
  ∧ final fetched = final created.
Proof.
  intros Hmethod Hdec Hvalid. cbn zeta. intros Hmethod' Hpath'.
  rewrite (handleBlogsByID_flat env' r' _ _ Hpath'
             (uuid_String_nonempty _) (uuid_String_flat _)), Hmethod'.
  cbn [String.eqb Ascii.eqb Bool.eqb].
  unfold handleBlogsCreate. rewrite Hmethod. cbn [String.eqb Ascii.eqb Bool.eqb negb].
  rewrite (decodeValid_valid r req Hdec Hvalid). cbn [err value].
  cbn [store.Create MemoryBlogStore.memory_BlogStore MemoryBlogStore.Create final].
  unfold handleBlogGet.
  cbn [store.GetByID MemoryBlogStore.memory_BlogStore]. unfold MemoryBlogStore.GetByID.
  change (Blog.ID (NewBlog (now env) (uuid.New (entropy env)) req))
    with (uuid.String (uuid.New (entropy env))).
  rewrite lookup_insert_eq. done.
Qed.

(** X17: GET /api/v1/blogs without an author value answers 200 with a JSON
    array, never null, that holds every stored blog once; the store is
    not changed. *)
Theorem handleBlogsGet_all (env : Env) (r : Request) (s : gmap string Blog.t) :
  MemoryBlogStore.range_ok range →
  Method r = "GET" →
  Values_Get (Query r) "author" = "" →
  ∃ l : list Blog.t,
    let run := handleBlogsGet (BS := memory) env r s in
    final run = s
    ∧ StatusCode (respond (ops run)) = StatusOK
    ∧ ResponseBody (respond (ops run)) = [JSONLine (JArray (toJSON <$> l))]
    ∧ l ≡ₚ snd <$> map_to_list s.
Proof.
  intros Hrange Hmethod Hquery. exists (snd <$> range s).
  unfold handleBlogsGet. rewrite Hmethod, Hquery.
  cbn [String.eqb Ascii.eqb Bool.eqb negb].
  cbn [store.GetAll MemoryBlogStore.memory_BlogStore]. unfold MemoryBlogStore.GetAll.
  rewrite foldl_append_all. cbn [app].
  do 3 (split; [reflexivity |]). by rewrite (Hrange s).
Qed.
(** X18: with a non-empty author value, the body of the list handler is
    the JSON null when no stored blog has that author, and a non-empty
    JSON array when one has: it is never the empty array. *)
Theorem handleBlogsGet_author_body
    (env : Env) (r : Request) (s : gmap string Blog.t) (X : string) :
  MemoryBlogStore.range_ok range →
  Method r = "GET" →
  Values_Get (Query r) "author" = X →
  X ≠ "" →
  let run := handleBlogsGet (BS := memory) env r s in
  ((∀ id b, s !! id = Some b → Blog.Author b ≠ X) →
     ResponseBody (respond (ops run)) = [JSONLine JNull])
  ∧ ((∃ id b, s !! id = Some b ∧ Blog.Author b = X) →
     ∃ (b : Blog.t) (l : list Blog.t),
       ResponseBody (respond (ops run)) = [JSONLine (JArray (toJSON <$> (b :: l)))]).
Proof.
  intros Hrange Hmethod Hquery Hne. cbn zeta.
  unfold handleBlogsGet. rewrite Hmethod, Hquery.
  cbn [String.eqb Ascii.eqb Bool.eqb negb].
  apply String.eqb_neq in Hne. rewrite Hne. cbn [negb].
  cbn [store.GetByAuthor MemoryBlogStore.memory_BlogStore].
  unfold MemoryBlogStore.GetByAuthor. split.
  - intros Hnone.
    assert (Hnil : foldl (λ (blogs : slice Blog.t) kv,
                            if String.eqb (Blog.Author (snd kv)) X
                            then append blogs (snd kv) else blogs) None (range s) = None).
    { apply foldl_append_None. intros [id b] Hin. rewrite (Hrange s) in Hin.
      apply elem_of_map_to_list in Hin. by apply (Hnone id). }
    rewrite Hnil. reflexivity.
  - intros (id & b & Hid & Hauthor).
    destruct (foldl (λ (blogs : slice Blog.t) kv,
                       if String.eqb (Blog.Author (snd kv)) X
                       then append blogs (snd kv) else blogs) None (range s))
      as [[| b' l] |] eqn:Hfold.
    + exfalso. pose proof (foldl_append_filter X (range s) None) as Helems.
      rewrite Hfold in Helems.
      assert (Hin : b ∈ filter (λ b, Blog.Author b = X) (snd <$> range s)).
      { apply list_elem_of_filter. split; [exact Hauthor |].
        apply list_elem_of_fmap. exists (id, b). split; [reflexivity |].
        rewrite (Hrange s). by apply elem_of_map_to_list. }
      change (elems None ++ ?l)%list with l in Helems.
      rewrite <- Helems in Hin. by apply elem_of_nil in Hin.
    + exists b', l. reflexivity.
    + exfalso. pose proof (proj1 (foldl_append_None X (range s)) Hfold) as Hnone.
      apply (Hnone (id, b)); [| exact Hauthor].
      rewrite (Hrange s). by apply elem_of_map_to_list.
Qed.
End HandlersMemoryStore.

(** ** Router *)

Section Router.
Context {S : Type} {BS : store.BlogStore S}.
Context {DC : JSONDecoder CreateBlogRequest.t} {DU : JSONDecoder UpdateBlogRequest.t}.

(** What holds of the run of every registered handler, and of the 404
    answer, holds of the run of the router. *)
Lemma ServeMux_run (Q : Run S → Prop) (mux : list (string * Handler S)) :
  (∀ e, e ∈ mux → ∀ env r s, Q (snd e env r s)) →
  (∀ s, Q (mkRun (http_Error "404 page not found" StatusNotFound) Returned s)) →
  ∀ env r s, Q (ServeMux_ServeHTTP mux env r s).
Proof.
  intros Hmux Hmiss env r s. unfold ServeMux_ServeHTTP.
  destruct (findHandler mux (Path r)) as [[p h] |] eqn:Hfind; [| apply Hmiss].
  apply (Hmux (p, h)). by apply findHandler_elem in Hfind.
Qed.


End Router.

(** ** The writer: headers and status *)


Lemma step_shown (w : ResponseWriter) (op : Op) (k : string) :
  leavesKey k op → shown (step w op) k = shown w k.
Proof.
  destruct w as [h wrote st sent b]. unfold shown.
  destruct op as [k' v | code | c | lvl msg attrs]; cbn; intros Hop.
  - destruct wrote; [reflexivity |]. by rewrite lookup_insert_ne.
  - unfold doWriteHeader. cbn. destruct wrote; [reflexivity |].
    by destruct ((100 <=? code) && (code <=? 199) && negb (code =? 101)).
  - unfold doWrite. cbn. destruct wrote; cbn.
    + by destruct (bodyAllowedForStatus st).
    + reflexivity.
  - reflexivity.
Qed.

Lemma foldl_step_shown (l : list Op) (w : ResponseWriter) (k : string) :
  Forall (leavesKey k) l → shown (foldl step w l) k = shown w k.
Proof.
  intros Hl. revert w. induction Hl as [| op l Hop _ IH]; intros w; [reflexivity |].
  cbn [foldl]. by rewrite IH, step_shown.
Qed.

Lemma respond_shown (l : list Op) (k : string) :
  Header (respond l) !! k = shown (written l) k.
Proof.
  unfold respond, shown. destruct (written l) as [h wrote st sent b]. cbn.
  by destruct wrote.
Qed.

Lemma keepsCors_leaves (l : list Op) (k : string) :
  keepsCors l = true → isCorsKey k = true → Forall (leavesKey k) l.
Proof.
  unfold keepsCors. intros Hl Hk. apply Forall_forall. intros op Hin.
  rewrite forallb_forall in Hl. specialize (Hl op). rewrite <- list_elem_of_In in Hl.
  specialize (Hl Hin). destruct op as [k' v | | |]; cbn; try done.
  intros ->. by rewrite Hk in Hl.
Qed.

(** Once the status is out it stays. *)
Lemma step_committed (w : ResponseWriter) (op : Op) :
  wroteHeader w = true →
  wroteHeader (step w op) = true ∧ status (step w op) = status w.
Proof.
  destruct w as [h wrote st sent b]. cbn. intros ->.
  destruct op as [k v | code | c | lvl msg attrs]; cbn; try done.
  unfold doWrite. cbn. by destruct (bodyAllowedForStatus st).
Qed.

Lemma foldl_step_committed (l : list Op) (w : ResponseWriter) :
  wroteHeader w = true →
  wroteHeader (foldl step w l) = true ∧ status (foldl step w l) = status w.
Proof.
  revert w. induction l as [| op l IH]; intros w Hw; [done |]. cbn [foldl].
  destruct (step_committed w op Hw) as [Hw' Hst].
  destruct (IH _ Hw') as [? ?]. split; [done | congruence].
Qed.

Lemma respond_committed (l1 l2 : list Op) :
  wroteHeader (written l1) = true →
  StatusCode (respond (l1 ++ l2)) = status (written l1).
Proof.
  intros Hw. unfold respond. rewrite written_app.
  destruct (foldl_step_committed l2 _ Hw) as [Hw' Hst].
  rewrite Hw'. exact Hst.
Qed.

Lemma capturedStatus_app (l1 l2 : list Op) :
  capturedStatus (l1 ++ l2)
  = foldl (λ code op, match op with WriteHeader c => c | _ => code end)
          (capturedStatus l1) l2.
Proof. unfold capturedStatus. apply foldl_app. Qed.

Lemma capturedStatus_no_header (l : list Op) (code : Z) :
  existsb isWriteHeader l = false →
  foldl (λ code op, match op with WriteHeader c => c | _ => code end) code l = code.
Proof.
  revert code. induction l as [| op l IH]; intros code; [reflexivity |].
  cbn [existsb foldl]. intros [Hop Hl]%orb_false_iff.
  rewrite IH by exact Hl. by destruct op.
Qed.

(** A run that answers once, started on a writer whose status is not out
    yet, sends the code it answers with; and that code is the last, being
    the only one, the logging middleware sees. *)
Lemma repliesOnce_status (l : list Op) (code : Z) :
  repliesOnce l = Some code →
  (∀ w, wroteHeader w = false →
     wroteHeader (foldl step w l) = true ∧ status (foldl step w l) = code)
  ∧ (∀ start,
       foldl (λ code op, match op with WriteHeader c => c | _ => code end) start l = code).
Proof.
  induction l as [| op l IH]; [discriminate |]. cbn [repliesOnce].
  destruct op as [k v | c | c | lvl msg attrs]; try discriminate.
  - intros Hl. destruct (IH Hl) as [IHw IHc]. split; [| intros start; apply IHc].
    intros w Hw. cbn [foldl]. apply IHw. destruct w; exact Hw.
  - destruct (informational c || existsb isWriteHeader l) eqn:Hcond; [discriminate |].
    intros [= ->]. apply orb_false_iff in Hcond as [Hinfo Hno].
    split.
    + intros w Hw. cbn [foldl step].
      assert (Hcommit : wroteHeader (doWriteHeader code w) = true
                        ∧ status (doWriteHeader code w) = code).
      { unfold doWriteHeader. rewrite Hw. unfold informational in Hinfo.
        rewrite Hinfo. done. }
      destruct Hcommit as [Hw' Hst].
      destruct (foldl_step_committed l _ Hw') as [? ?]. split; [done | congruence].
    + intros start. cbn [foldl]. by apply capturedStatus_no_header.
  - intros Hl. destruct (IH Hl) as [IHw IHc]. split; [| intros start; apply IHc].
    intros w Hw. cbn [foldl]. apply IHw. destruct w; exact Hw.
Qed.

(** ** Middleware *)

Lemma logged_app (l1 l2 : list Op) : logged (l1 ++ l2) = (logged l1 ++ logged l2)%list.
Proof. unfold logged. apply omap_app. Qed.

Section MiddlewareAnyHandler.
Context {S : Type}.

(** X20: the CORS middleware hands every request whose method is not
    OPTIONS to the inner handler, with the three headers set first; if
    the inner handler does not set an Access-Control header itself, the
    response carries the three headers with the values of the middleware,
    whatever else the inner handler does. *)
Theorem corsMiddleware_headers (next : Handler S) (env : Env) (r : Request) (s : S) :
  Method r ≠ "OPTIONS" →
  keepsCors (ops (next env r s)) = true →
  let run := corsMiddleware next env r s in
  ops run = (corsHeaders ++ ops (next env r s))%list
  ∧ outcome run = outcome (next env r s)
  ∧ final run = final (next env r s)
  ∧ Header (respond (ops run)) !! "Access-Control-Allow-Origin" = Some "*"
  ∧ Header (respond (ops run)) !! "Access-Control-Allow-Methods"
    = Some "GET, POST, PUT, DELETE, OPTIONS"
  ∧ Header (respond (ops run)) !! "Access-Control-Allow-Headers"
    = Some "Content-Type, Authorization".
Proof.
  intros Hmethod%String.eqb_neq Hkeeps. cbn zeta. unfold corsMiddleware.
  rewrite Hmethod. cbn [ops outcome final]. do 3 (split; [reflexivity |]).
  change [SetHeader "Access-Control-Allow-Origin" "*";
          SetHeader "Access-Control-Allow-Methods" "GET, POST, PUT, DELETE, OPTIONS";
          SetHeader "Access-Control-Allow-Headers" "Content-Type, Authorization"]
    with corsHeaders.
  rewrite !respond_shown, written_app.
  rewrite !foldl_step_shown by (by apply keepsCors_leaves).
  repeat split; vm_compute; reflexivity.
Qed.


Lemma logged_completed (env : Env) (r : Request) (code : Z) :
  logged [completed env r code] = [requestCompleted env r code].
Proof. reflexivity. Qed.

(** The run of the chain on a request that is not a preflight. *)
Lemma withMiddleware_run (next : Handler S) (env : Env) (r : Request) (s : S) :
  Method r ≠ "OPTIONS" →
  withMiddleware next env r s
  = match outcome (next env r s) with
    | Returned =>
        let inner := (corsHeaders ++ ops (next env r s))%list in
        mkRun (inner ++ [completed env r (capturedStatus inner)]) Returned
              (final (next env r s))
    | Panicked v =>
        let inner := ((corsHeaders ++ ops (next env r s)) ++ recoveryOps r v)%list in
        mkRun (inner ++ [completed env r (capturedStatus inner)]) Returned
              (final (next env r s))
    end.
Proof.
  intros Hmethod%String.eqb_neq.
  unfold withMiddleware, loggingMiddleware, panicRecoveryMiddleware,
    ratelimitMiddleware, corsMiddleware.
  rewrite Hmethod. cbn [ops outcome final].
  destruct (outcome (next env r s)); reflexivity.
Qed.

(** X21: the chain of NewServer never lets a panic out, whatever handler
    it wraps: its run returns, and the last record it logs is "request
    completed".  When the inner handler panics on a request that is not
    a preflight, the panic value is logged under "panic recovered" and
    the completion record says status 500, also when the inner handler
    had already sent another status. *)
Theorem withMiddleware_recovers (next : Handler S) (env : Env) (r : Request) (s : S) :
  let run := withMiddleware next env r s in
  outcome run = Returned
  ∧ ∃ code,
      last (logged (ops run)) = Some (requestCompleted env r code)
      ∧ ∀ v, Method r ≠ "OPTIONS" → outcome (next env r s) = Panicked v →
          code = StatusInternalServerError
          ∧ (LevelError, "panic recovered",
             [("error", LAny v); ("path", LString (Path r));
              ("method", LString (Method r))]) ∈ logged (ops run).
Proof.
  cbn zeta. destruct (decide (Method r = "OPTIONS")) as [Hopt | Hopt].
  - rewrite (withMiddleware_OPTIONS next env r s Hopt). cbn [outcome ops].
    split; [reflexivity |]. exists StatusOK. split; [reflexivity |]. done.
  - rewrite (withMiddleware_run next env r s Hopt).
    destruct (outcome (next env r s)) as [| v]; cbn [outcome ops]; cbn zeta.
    + split; [reflexivity |]. eexists. rewrite logged_app, logged_completed, last_snoc.
      split; [reflexivity |]. intros v _ [=].
    + split; [reflexivity |]. eexists. rewrite logged_app, logged_completed, last_snoc.
      split; [reflexivity |]. intros v' _ [= <-]. split.
      * rewrite capturedStatus_app. reflexivity.
      * rewrite !logged_app, !elem_of_app. left. right. left.
Qed.
End MiddlewareAnyHandler.

(** ** The server as a whole *)


Section ServerAnyStore.
Context {S : Type} {BS : store.BlogStore S}.
Context {DC : JSONDecoder CreateBlogRequest.t} {DU : JSONDecoder UpdateBlogRequest.t}.

Local Ltac answers_once :=
  repeat case_match; (split; [reflexivity |]); (split; [reflexivity |]); cbn; eauto.

Lemma handleHealthz_answersOnce (env : Env) (r : Request) (s : S) :
  answersOnce (handleHealthz env r s).
Proof. rewrite handleHealthz_run. unfold answersOnce. answers_once. Qed.

Lemma handleBlogsCreate_answersOnce (env : Env) (r : Request) (s : S) :
  answersOnce (handleBlogsCreate env r s).
Proof. unfold answersOnce, handleBlogsCreate. answers_once. Qed.

Lemma handleBlogsGet_answersOnce (env : Env) (r : Request) (s : S) :
  answersOnce (handleBlogsGet env r s).
Proof. unfold answersOnce, handleBlogsGet. answers_once. Qed.

Lemma handleBlogsByID_answersOnce (env : Env) (r : Request) (s : S) :
  answersOnce (handleBlogsByID env r s).
Proof.
  unfold answersOnce, handleBlogsByID, handleBlogGet, handleBlogUpdate, handleBlogDelete.
  answers_once.
Qed.

Lemma router_answersOnce (env : Env) (r : Request) (s : S) :
  answersOnce (ServeMux_ServeHTTP (addRoutes NewServeMux) env r s).
Proof.
  apply (ServeMux_run answersOnce).
  - intros e He env' r' s'.
    unfold addRoutes, Handle, NewServeMux in He. cbn [app] in He.
    rewrite !elem_of_cons, elem_of_nil in He.
    destruct He as [-> | [-> | [-> | [-> | []]]]]; cbn [snd].
    + apply handleHealthz_answersOnce.
    + apply handleHealthz_answersOnce.
    + destruct (String.eqb (Method r') "GET"); [apply handleBlogsGet_answersOnce |].
      destruct (String.eqb (Method r') "POST"); [apply handleBlogsCreate_answersOnce |].
      unfold answersOnce. cbn. eauto.
    + apply handleBlogsByID_answersOnce.
  - intros s'. unfold answersOnce. cbn. eauto.
Qed.

(** X22: whatever the request and whatever the store answers, the response
    of the server carries the three CORS headers, and the status in the
    "request completed" record, the last record logged, is the status
    code of the response. *)
Theorem NewServer_Handler_cors_and_log (env : Env) (r : Request) (s : S) :
  let run := NewServer_Handler env r s in
  outcome run = Returned
  ∧ Header (respond (ops run)) !! "Access-Control-Allow-Origin" = Some "*"
  ∧ Header (respond (ops run)) !! "Access-Control-Allow-Methods"
    = Some "GET, POST, PUT, DELETE, OPTIONS"
  ∧ Header (respond (ops run)) !! "Access-Control-Allow-Headers"
    = Some "Content-Type, Authorization"
  ∧ last (logged (ops run))
    = Some (requestCompleted env r (StatusCode (respond (ops run)))).
Proof.
  cbn zeta. unfold NewServer_Handler.
  destruct (decide (Method r = "OPTIONS")) as [Hopt | Hopt].
  - rewrite (withMiddleware_OPTIONS _ env r s Hopt). cbn [outcome ops].
    repeat split; vm_compute; reflexivity.
  - rewrite (withMiddleware_run _ env r s Hopt).
    destruct (router_answersOnce env r s) as (-> & Hkeeps & [code Hcode]).
    cbn [outcome ops]. cbn zeta. split; [reflexivity |].
    destruct (repliesOnce_status _ _ Hcode) as [Hstatus Hcaptured].
    rewrite !respond_shown, !written_app.
    rewrite !foldl_step_shown;
      [| first [by apply keepsCors_leaves | by apply Forall_singleton] ..].
    do 3 (split; [vm_compute; reflexivity |]).
    rewrite logged_app, logged_completed, last_snoc. do 3 f_equal.
    rewrite capturedStatus_app, Hcaptured.
    destruct (Hstatus (written corsHeaders) eq_refl) as [Hw Hst].
    rewrite <- written_app in Hw, Hst.
    rewrite (respond_committed _ _ Hw). by rewrite Hst.
Qed.
End ServerAnyStore.

Lemma decodeValid_no_error {T : Type} {V : Validator T} {D : JSONDecoder T} (r : Request) :
  err (decodeValid r) = None → Valid (value (decodeValid r)) = ∅.
Proof.
  unfold decodeValid. destruct (Decode (Body r) zeroValue) as [v [e |]]; [discriminate |].
  destruct (size (Valid v)) eqn:Hsize; [| discriminate].
  intros _. cbn. by apply map_size_empty_iff.
Qed.

Section ServerWellformed.
Variable range : MemoryBlogStore.t → list (string * Blog.t).
Context {DC : JSONDecoder CreateBlogRequest.t} {DU : JSONDecoder UpdateBlogRequest.t}.

#[local] Abbreviation memory := (MemoryBlogStore.memory_BlogStore range).

Lemma wellformed_insert (s : gmap string Blog.t) (id : string) (b : Blog.t) :
  store_wellformed s → Blog_wellformed b → store_wellformed (<[id := b]> s).
Proof.
  intros Hs Hb id' b'. rewrite lookup_insert. case_decide; [by intros [= <-] | apply Hs].
Qed.

Lemma wellformed_delete (s : gmap string Blog.t) (id : string) :
  store_wellformed s → store_wellformed (delete id s).
Proof.
  intros Hs id' b'. rewrite lookup_delete. case_decide; [discriminate | apply Hs].
Qed.

Lemma handleBlogsCreate_wellformed (env : Env) (r : Request) (s : gmap string Blog.t) :
  store_wellformed s →
  store_wellformed (final (handleBlogsCreate (BS := memory) env r s)).
Proof.
  intros Hs. unfold handleBlogsCreate.
  destruct (negb (String.eqb (Method r) "POST")); [exact Hs |].
  destruct (err (decodeValid r)) eqn:Herr;
    [destruct (problems (decodeValid r)); exact Hs |].
  cbn. apply wellformed_insert; [exact Hs |].
  apply NewBlog_valid_wellformed. exact (decodeValid_no_error r Herr).
Qed.

Lemma handleBlogsByID_wellformed (env : Env) (r : Request) (s : gmap string Blog.t) :
  store_wellformed s →
  store_wellformed (final (handleBlogsByID (BS := memory) env r s)).
Proof.
  intros Hs. unfold handleBlogsByID.
  destruct (_ || _); [exact Hs |].
  destruct (String.eqb (Method r) "GET").
  { unfold handleBlogGet. cbn [store.GetByID MemoryBlogStore.memory_BlogStore].
    unfold MemoryBlogStore.GetByID. destruct (s !! _); exact Hs. }
  destruct (String.eqb (Method r) "PUT").
  { unfold handleBlogUpdate. cbn [store.GetByID MemoryBlogStore.memory_BlogStore].
    unfold MemoryBlogStore.GetByID.
    destruct (s !! _) as [b |] eqn:Hid; [| exact Hs].
    destruct (err (decodeValid r)) eqn:Herr;
      [destruct (problems (decodeValid r)); exact Hs |].
    cbn [store.Update MemoryBlogStore.memory_BlogStore]. unfold MemoryBlogStore.Update.
    rewrite Hid. cbn [final]. apply wellformed_insert; [exact Hs |].
    apply Blog_Update_valid_wellformed; [exact (decodeValid_no_error r Herr) |].
    exact (Hs _ _ Hid). }
  destruct (String.eqb (Method r) "DELETE"); [| exact Hs].
  unfold handleBlogDelete. cbn [store.Delete MemoryBlogStore.memory_BlogStore].
  unfold MemoryBlogStore.Delete. destruct (s !! _); [| exact Hs].
  by apply wellformed_delete.
Qed.

(** Every request keeps the stored blogs in the form of the entity. *)
Lemma NewServer_Handler_keeps_wellformed (env : Env) (r : Request) (s : gmap string Blog.t) :
  store_wellformed s →
  store_wellformed (final (NewServer_Handler (BS := memory) env r s)).
Proof.
  intros Hs. unfold NewServer_Handler.
  destruct (withMiddleware_final
              (ServeMux_ServeHTTP (addRoutes (BS := memory) NewServeMux))
              env r s) as [-> | ->]; [exact Hs |].
  apply (ServeMux_keeps store_wellformed); [| exact Hs].
  intros e He env' r' s' Hs'.
  unfold addRoutes, Handle, NewServeMux in He. cbn [app] in He.
  rewrite !elem_of_cons, elem_of_nil in He.
  destruct He as [-> | [-> | [-> | [-> | []]]]]; cbn [snd].
  - exact Hs'.
  - exact Hs'.
  - destruct (String.eqb (Method r') "GET"); [by rewrite handleBlogsGet_final |].
    destruct (String.eqb (Method r') "POST"); [by apply handleBlogsCreate_wellformed |].
    exact Hs'.
  - by apply handleBlogsByID_wellformed.
Qed.

End ServerWellformed.

(** ** decode and decodeValid *)

(** X23: decodeValid is decode followed by Valid: both return the same
    value; decodeValid fails with decode's error when decode fails, and
    otherwise fails exactly when Valid reports a problem, returning the
    problems then and nil else. *)
Theorem decodeValid_is_decode_then_Valid {T : Type} {V : Validator T} {D : JSONDecoder T}
    (r : Request) :
  value (decodeValid r) = fst (decode zeroValue r)
  ∧ match snd (decode zeroValue r) with
    | Some e => err (decodeValid r) = Some e ∧ problems (decodeValid r) = None
    | None =>
        (err (decodeValid r) = None ↔ Valid (fst (decode zeroValue r)) = ∅)
        ∧ problems (decodeValid r)
          = if decide (Valid (fst (decode zeroValue r)) = ∅) then None
            else Some (Valid (fst (decode zeroValue r)))
    end.
Proof.
  unfold decodeValid, decode.
  destruct (Decode (Body r) zeroValue) as [v [e |]]; cbn.
  { done. }
  destruct (size (Valid v)) eqn:Hsize; cbn.
  - apply map_size_empty_iff in Hsize. rewrite decide_True by done. done.
  - assert (Hne : Valid v ≠ ∅) by (apply map_size_non_empty_iff; lia).
    rewrite decide_False by done. split; [reflexivity |]. split; [| reflexivity].
    split; [discriminate | done].
Qed.

(** ** Configuration *)


Local Ltac spelling level s Hin :=
  destruct (String.eqb_spec level s) as [-> | ?];
  [cbn; split; [split; [intros _; apply Hin; cbn; tauto | reflexivity]
               | intros Hn; exfalso; apply Hn, Hin; cbn; tauto] |].

(** X24: logger.ParseLevel and config.parseLogLevel are the same function.
    They accept ten spellings, all lower case or all upper case, and
    nothing else: any other text, mixed case included, gives the level
    Info together with the error "unknown level: " and the text. *)
Theorem ParseLevel_spellings (level : string) :
  config.parseLogLevel level = logger.ParseLevel level
  ∧ (snd (logger.ParseLevel level) = None ↔ level ∈ levelSpellings)
  ∧ (level ∉ levelSpellings →
     logger.ParseLevel level
     = (slog.LevelInfo, Some (OtherError ("unknown level: " ++ level)))).
Proof.
  split; [reflexivity |]. unfold logger.ParseLevel.
  assert (Hin : ∀ s : string, In s levelSpellings → s ∈ levelSpellings)
    by (intros s; apply list_elem_of_In).
  spelling level "debug" Hin. spelling level "DEBUG" Hin.
  spelling level "info" Hin. spelling level "INFO" Hin.
  spelling level "warn" Hin. spelling level "WARN" Hin.
  spelling level "warning" Hin. spelling level "WARNING" Hin.
  spelling level "error" Hin. spelling level "ERROR" Hin.
  cbn. split; [| reflexivity]. split; [discriminate |].
  intros Hlevel%list_elem_of_In. cbn in Hlevel. intuition congruence.
Qed.

Section LoadFacts.
Variable Atoi : string → Z * option string.
Variable ParseDuration : string → config.Duration * option string.

Lemma chosen_cases {A E : Type} (raw : string) (parse : string → A * option E)
    (default : A) :
  (raw = "" ∧ String.eqb raw "" = true)
  ∨ (raw ≠ "" ∧ String.eqb raw "" = false ∧ ∃ v, parse raw = (v, None))
  ∨ (raw ≠ "" ∧ String.eqb raw "" = false ∧ ∃ v e, parse raw = (v, Some e)).
Proof.
  destruct (String.eqb_spec raw "") as [-> | Hne]; [by left |]. right.
  destruct (parse raw) as [v [e |]]; [right | left]; eauto.
Qed.

(** X25: Load succeeds with a configuration exactly when that
    configuration has, for each setting, the default when the variable is
    empty (localhost, 8080, Info, 30s, 30s, 15s) and otherwise the value
    the variable parses to without error; HOST is taken as it is. *)
Theorem Load_ok (getenv : string → string) (cfg : config.Config) :
  config.Load Atoi ParseDuration getenv = Ok cfg
  ↔ config.Host cfg = (if String.eqb (getenv "HOST") "" then "localhost" else getenv "HOST")
    ∧ chosen (getenv "PORT") Atoi 8080 (config.Port cfg)
    ∧ chosen (getenv "LOG_LEVEL") config.parseLogLevel slog.LevelInfo (config.LogLevel cfg)
    ∧ chosen (getenv "READ_TIMEOUT") ParseDuration (30 * config.Second)
             (config.ReadTimeout cfg)
    ∧ chosen (getenv "WRITE_TIMEOUT") ParseDuration (30 * config.Second)
             (config.WriteTimeout cfg)
    ∧ chosen (getenv "SHUTDOWN_TIMEOUT") ParseDuration (15 * config.Second)
             (config.ShutdownTimeout cfg).
Proof.
  unfold config.Load, chosen. destruct cfg as [host port level rt wt st]. cbn.
  destruct (String.eqb (getenv "HOST") ""); cbn.
  all: destruct (String.eqb (getenv "PORT") ""); cbn;
    [| destruct (Atoi (getenv "PORT")) as [? [? |]]; cbn; [intuition congruence |]].
  all: destruct (String.eqb (getenv "LOG_LEVEL") ""); cbn;
    [| destruct (config.parseLogLevel (getenv "LOG_LEVEL")) as [? [? |]]; cbn;
       [intuition congruence |]].
  all: destruct (String.eqb (getenv "READ_TIMEOUT") ""); cbn;
    [| destruct (ParseDuration (getenv "READ_TIMEOUT")) as [? [? |]]; cbn;
       [intuition congruence |]].
  all: destruct (String.eqb (getenv "WRITE_TIMEOUT") ""); cbn;
    [| destruct (ParseDuration (getenv "WRITE_TIMEOUT")) as [? [? |]]; cbn;
       [intuition congruence |]].
  all: destruct (String.eqb (getenv "SHUTDOWN_TIMEOUT") ""); cbn;
    [| destruct (ParseDuration (getenv "SHUTDOWN_TIMEOUT")) as [? [? |]]; cbn;
       [intuition congruence |]].
  all: intuition congruence.
Qed.
Local Ltac take_accepted H :=
  match type of H with
  | accepted ?raw ?parse =>
      destruct (String.eqb_spec raw "") as [? | ?]; cbn;
      [| destruct H as [? | [? H]]; [contradiction | rewrite H; cbn]]
  end.

Local Ltac take_rejected H :=
  match type of H with
  | rejected ?raw ?parse ?e =>
      let Hne := fresh in
      destruct H as [Hne [? H]];
      destruct (String.eqb_spec raw "") as [? | _]; [contradiction |];
      cbn; rewrite H; cbn
  end.

(** X26: Load stops at the first variable, in the order PORT, LOG_LEVEL,
    READ_TIMEOUT, WRITE_TIMEOUT, SHUTDOWN_TIMEOUT, that is set and does
    not parse, and returns an error that names this variable and carries
    the parser's message, whatever the later variables hold; no value is
    replaced by a default. *)
Theorem Load_first_error (getenv : string → string) :
  (∀ e, rejected (getenv "PORT") Atoi e →
     config.Load Atoi ParseDuration getenv = Err (OtherError ("invalid PORT: " ++ e)))
  ∧ (∀ e, accepted (getenv "PORT") Atoi →
     rejected (getenv "LOG_LEVEL") config.parseLogLevel e →
     config.Load Atoi ParseDuration getenv
     = Err (OtherError ("invalid LOG_LEVEL: " ++ config.errorText e)))
  ∧ (∀ e, accepted (getenv "PORT") Atoi →
     accepted (getenv "LOG_LEVEL") config.parseLogLevel →
     rejected (getenv "READ_TIMEOUT") ParseDuration e →
     config.Load Atoi ParseDuration getenv
     = Err (OtherError ("invalid READ_TIMEOUT: " ++ e)))
  ∧ (∀ e, accepted (getenv "PORT") Atoi →
     accepted (getenv "LOG_LEVEL") config.parseLogLevel →
     accepted (getenv "READ_TIMEOUT") ParseDuration →
     rejected (getenv "WRITE_TIMEOUT") ParseDuration e →
     config.Load Atoi ParseDuration getenv
     = Err (OtherError ("invalid WRITE_TIMEOUT: " ++ e)))
  ∧ (∀ e, accepted (getenv "PORT") Atoi →
     accepted (getenv "LOG_LEVEL") config.parseLogLevel →
     accepted (getenv "READ_TIMEOUT") ParseDuration →
     accepted (getenv "WRITE_TIMEOUT") ParseDuration →
     rejected (getenv "SHUTDOWN_TIMEOUT") ParseDuration e →
     config.Load Atoi ParseDuration getenv
     = Err (OtherError ("invalid SHUTDOWN_TIMEOUT: " ++ e))).
Proof.
  unfold config.Load. repeat split.
  - intros e Hp. take_rejected Hp. reflexivity.
  - intros e Hp Hl. take_accepted Hp; take_rejected Hl; reflexivity.
  - intros e Hp Hl Hr. take_accepted Hp; take_accepted Hl; take_rejected Hr; reflexivity.
  - intros e Hp Hl Hr Hw.
    take_accepted Hp; take_accepted Hl; take_accepted Hr; take_rejected Hw; reflexivity.
  - intros e Hp Hl Hr Hw Hs.
    take_accepted Hp; take_accepted Hl; take_accepted Hr; take_accepted Hw;
      take_rejected Hs; reflexivity.
Qed.
End LoadFacts.

Lemma Load_ok_witness :
  config.Load sampleAtoi sampleParseDuration sampleGetenv
  = Ok (config.mkConfig "localhost" 9090 slog.LevelDebug
          (5 * config.Second) (30 * config.Second) (15 * config.Second)).
Proof.
  apply (Load_ok sampleAtoi sampleParseDuration sampleGetenv).
  repeat split.
Defined.

Lemma Load_first_error_witness :
  config.Load sampleAtoi sampleParseDuration badPortGetenv
  = Err (OtherError "invalid PORT: strconv.Atoi: parsing: invalid syntax").
Proof.
  apply (Load_first_error sampleAtoi sampleParseDuration badPortGetenv).
  split; [discriminate |]. exists 0. reflexivity.
Defined.

Lemma ParseLevel_spellings_witness :
  logger.ParseLevel "Info" = (slog.LevelInfo, Some (OtherError "unknown level: Info")).
Proof.
  apply (ParseLevel_spellings "Info").
  intros Hin%list_elem_of_In. cbn in Hin. intuition discriminate.
Defined.

(** ** The states the server reaches *)

Section ServerStates.
Variable range : MemoryBlogStore.t → list (string * Blog.t).
Context {DC : JSONDecoder CreateBlogRequest.t} {DU : JSONDecoder UpdateBlogRequest.t}.

#[local] Abbreviation memory := (MemoryBlogStore.memory_BlogStore range).

Lemma serveAll_keeps (P : gmap string Blog.t → Prop) :
  (∀ env r s, P s → P (final (NewServer_Handler (BS := memory) env r s))) →
  ∀ reqs s, P s → P (serveAll (NewServer_Handler (BS := memory)) reqs s).
Proof.
  intros Hstep reqs. unfold serveAll.
  induction reqs as [| [env r] reqs IH]; intros s Hs; [exact Hs |].
  cbn [foldl fst snd]. apply IH, Hstep, Hs.
Qed.

(** X27: in every state the server reaches from the empty store by
    handling requests one after the other, each blog is stored under its
    own id, so no two stored blogs have the same id. *)
Theorem server_states_unique_ids (reqs : list (Env * Request)) :
  let s := serveAll (NewServer_Handler (BS := memory)) reqs
                    MemoryBlogStore.NewMemoryBlogStore in
  MemoryBlogStore.keyed_by_id s ∧ MemoryBlogStore.unique_ids s.
Proof.
  cbn zeta.
  assert (Hkey : MemoryBlogStore.keyed_by_id
                   (serveAll (NewServer_Handler (BS := memory)) reqs
                             MemoryBlogStore.NewMemoryBlogStore)).
  { apply (serveAll_keeps MemoryBlogStore.keyed_by_id).
    - intros env r s. apply NewServer_Handler_keyed.
    - intros id b. unfold MemoryBlogStore.NewMemoryBlogStore.
      rewrite lookup_empty. discriminate. }
  split; [exact Hkey |]. by apply MemoryBlogStoreFacts.keyed_unique.
Qed.

(** X28: in every such state, every stored blog has a title, a content
    and an author that are not empty, carry no leading or trailing white
    space, and are within 100, 5000 and 50 bytes: no request can store
    a blog that is not in that form. *)
Theorem server_states_wellformed (reqs : list (Env * Request)) :
  store_wellformed (serveAll (NewServer_Handler (BS := memory)) reqs
                             MemoryBlogStore.NewMemoryBlogStore).
Proof.
  apply (serveAll_keeps store_wellformed).
  - intros env r s. apply NewServer_Handler_keeps_wellformed.
  - intros id b. unfold MemoryBlogStore.NewMemoryBlogStore.
    rewrite lookup_empty. discriminate.
Qed.
End ServerStates.

(** ** Concrete runs of the further properties *)

Lemma Blog_Update_wellformed_witness :
  Blog_wellformed (Blog_Update 2005 blogOne (UpdateBlogRequest.mk (Some "  New Title  ") None)).
Proof.
  apply (Blog_Update_wellformed 2005 blogOne (UpdateBlogRequest.mk (Some "  New Title  ") None)).
  - vm_compute. reflexivity.
  - repeat split; vm_compute; congruence.
Defined.

Lemma handleBlogsCreate_rejections_witness :
  final (handleBlogsCreate (BS := MemoryBlogStore.memory_BlogStore map_to_list)
           (DC := sampleCreateDecoder) sampleEnv (post "   ") threeBlogs) = threeBlogs
  ∧ StatusCode (respond (ops (handleBlogsCreate
                                (BS := MemoryBlogStore.memory_BlogStore map_to_list)
                                (DC := sampleCreateDecoder) sampleEnv (post "   ")
                                threeBlogs))) = StatusBadRequest.
Proof.
  destruct (handleBlogsCreate_rejections
              (BS := MemoryBlogStore.memory_BlogStore map_to_list)
              (DC := sampleCreateDecoder) sampleEnv (post "   ") threeBlogs)
    as (_ & _ & Hinvalid).
  destruct (Hinvalid (CreateBlogRequest.mk "   " "Test content" "Test Author"))
    as (Hfinal & Hstatus & _).
  - reflexivity.
  - reflexivity.
  - vm_compute. discriminate.
  - split; [exact Hfinal | exact Hstatus].
Defined.

Lemma handleBlogsByID_invalid_id_witness :
  StatusCode (respond (ops (handleBlogsByID
                              (BS := MemoryBlogStore.memory_BlogStore map_to_list)
                              (DU := sampleUpdateDecoder) sampleEnv
                              (get (blogsPrefix ++ "1/comments") []) threeBlogs)))
  = StatusBadRequest.
Proof.
  apply (handleBlogsByID_invalid_id
           (BS := MemoryBlogStore.memory_BlogStore map_to_list)
           (DU := sampleUpdateDecoder) sampleEnv
           (get (blogsPrefix ++ "1/comments") []) threeBlogs "1/comments").
  - reflexivity.
  - right. reflexivity.
Defined.

Lemma handleBlogsByID_GET_witness :
  ResponseBody (respond (ops (handleBlogsByID
                                (BS := MemoryBlogStore.memory_BlogStore map_to_list)
                                (DU := sampleUpdateDecoder) sampleEnv
                                (get (blogsPrefix ++ "2") []) threeBlogs)))
  = [JSONLine (toJSON blogTwo)].
Proof.
  pose proof (handleBlogsByID_GET map_to_list (DU := sampleUpdateDecoder) sampleEnv
                (get (blogsPrefix ++ "2") []) threeBlogs "2") as H.
  destruct H as (_ & _ & Hbody); [reflexivity | discriminate | reflexivity | reflexivity |].
  exact Hbody.
Defined.

Lemma handleBlogsByID_PUT_updates_witness :
  ResponseBody (respond (ops (handleBlogsByID
                                (BS := MemoryBlogStore.memory_BlogStore map_to_list)
                                (DU := sampleUpdateDecoder) sampleEnv
                                (put "2" "  T2  ") threeBlogs)))
  = [JSONLine (toJSON (Blog.mk "2" "T2" "Content 2" "Author B" 2 1005))].
Proof.
  destruct (handleBlogsByID_PUT_updates map_to_list (DU := sampleUpdateDecoder) sampleEnv
              (put "2" "  T2  ") threeBlogs "2" blogTwo
              (UpdateBlogRequest.mk (Some "  T2  ") None))
    as (_ & Hbody & _); [reflexivity | discriminate | reflexivity | reflexivity
                        | vm_compute; reflexivity | reflexivity | vm_compute; reflexivity |].
  rewrite Hbody. vm_compute. reflexivity.
Defined.

Lemma handleBlogsByID_PUT_rejections_witness :
  StatusCode (respond (ops (handleBlogsByID
                              (BS := MemoryBlogStore.memory_BlogStore map_to_list)
                              (DU := sampleUpdateDecoder) sampleEnv
                              (put "9" "invalid json") threeBlogs)))
  = StatusNotFound.
Proof.
  destruct (handleBlogsByID_PUT_rejections map_to_list (DU := sampleUpdateDecoder) sampleEnv
              (put "9" "invalid json") threeBlogs "9")
    as (Habsent & _); [reflexivity | discriminate | reflexivity | reflexivity |].
  apply Habsent. vm_compute. reflexivity.
Defined.

Lemma handleBlogsByID_DELETE_witness :
  StatusCode (respond (ops (handleBlogsByID
                              (BS := MemoryBlogStore.memory_BlogStore map_to_list)
                              (DU := sampleUpdateDecoder) sampleEnv
                              (request "DELETE" (blogsPrefix ++ "3")) threeBlogs)))
  = StatusNoContent.
Proof.
  pose proof (handleBlogsByID_DELETE map_to_list (DU := sampleUpdateDecoder) sampleEnv
                (request "DELETE" (blogsPrefix ++ "3")) threeBlogs "3") as H.
  destruct H as (Hstatus & _); [reflexivity | discriminate | reflexivity | reflexivity |].
  exact Hstatus.
Defined.

Lemma handleBlogsByID_other_method_witness :
  StatusCode (respond (ops (handleBlogsByID
                              (BS := MemoryBlogStore.memory_BlogStore map_to_list)
                              (DU := sampleUpdateDecoder) sampleEnv
                              (request "PATCH" (blogsPrefix ++ "3")) threeBlogs)))
  = StatusMethodNotAllowed.
Proof.
  apply (handleBlogsByID_other_method map_to_list (DU := sampleUpdateDecoder) sampleEnv
           (request "PATCH" (blogsPrefix ++ "3")) threeBlogs "3");
    first [reflexivity | discriminate].
Defined.

Lemma create_then_get_witness :
  StatusCode
    (respond (ops (handleBlogsByID
                     (BS := MemoryBlogStore.memory_BlogStore map_to_list)
                     (DU := sampleUpdateDecoder) sampleEnv
                     (get (blogsPrefix ++ "00112233-4455-4677-8899-aabbccddeeff") [])
                     (final (handleBlogsCreate
                               (BS := MemoryBlogStore.memory_BlogStore map_to_list)
                               (DC := sampleCreateDecoder) sampleEnv (post "Test Title")
                               threeBlogs)))))
  = StatusOK.
Proof.
  apply (create_then_get map_to_list (DC := sampleCreateDecoder) (DU := sampleUpdateDecoder)
           sampleEnv sampleEnv (post "Test Title")
           (get (blogsPrefix ++ "00112233-4455-4677-8899-aabbccddeeff") []) threeBlogs
           (CreateBlogRequest.mk "Test Title" "Test content" "Test Author")).
  - reflexivity.
  - reflexivity.
  - vm_compute. reflexivity.
  - reflexivity.
  - vm_compute. reflexivity.
Defined.

Lemma handleBlogsGet_all_witness :
  ∃ l : list Blog.t,
    ResponseBody (respond (ops (handleBlogsGet
                                  (BS := MemoryBlogStore.memory_BlogStore map_to_list)
                                  sampleEnv (get "/api/v1/blogs" []) threeBlogs)))
    = [JSONLine (JArray (toJSON <$> l))]
    ∧ length l = 3%nat.
Proof.
  destruct (handleBlogsGet_all map_to_list sampleEnv (get "/api/v1/blogs" []) threeBlogs)
    as (l & _ & _ & Hbody & Hperm);
    [exact map_to_list_range_ok | reflexivity | reflexivity |].
  exists l. split; [exact Hbody |]. rewrite Hperm. vm_compute. reflexivity.
Defined.

Lemma handleBlogsGet_author_body_witness :
  ResponseBody (respond (ops (handleBlogsGet
                                (BS := MemoryBlogStore.memory_BlogStore map_to_list)
                                sampleEnv (get "/api/v1/blogs" [("author", "NonExistent")])
                                oneBlog)))
  = [JSONLine JNull].
Proof.
  destruct (handleBlogsGet_author_body map_to_list sampleEnv
              (get "/api/v1/blogs" [("author", "NonExistent")]) oneBlog "NonExistent")
    as (Hnone & _);
    [exact map_to_list_range_ok | reflexivity | reflexivity | discriminate |].
  apply Hnone. intros id b Hid.
  change oneBlog with (<["1" := blogOne]> (∅ : gmap string Blog.t)) in Hid.
  apply lookup_insert_Some in Hid as [[_ <-] | [_ Hid]]; [discriminate |].
  by rewrite lookup_empty in Hid.
Defined.


Lemma corsMiddleware_headers_witness :
  Header (respond (ops (corsMiddleware (S := unit) writeThenPanic sampleEnv
                          (get "/test" []) tt)))
  !! "Access-Control-Allow-Origin" = Some "*".
Proof.
  apply (corsMiddleware_headers (S := unit) writeThenPanic sampleEnv (get "/test" []) tt).
  - discriminate.
  - reflexivity.
Defined.

Lemma withMiddleware_recovers_witness :
  ∃ code,
    last (logged (ops (withMiddleware (S := unit) writeThenPanic sampleEnv
                         (get "/test" []) tt)))
    = Some (requestCompleted sampleEnv (get "/test" []) code)
    ∧ code = StatusInternalServerError.
Proof.
  destruct (withMiddleware_recovers (S := unit) writeThenPanic sampleEnv (get "/test" []) tt)
    as (_ & code & Hlast & Hpanic).
  exists code. split; [exact Hlast |].
  apply (Hpanic "boom"); [discriminate | reflexivity].
Defined.
